(** * Directory watcher and GitHub sync scripts: model and properties

    Shallow embedding of the three scripts of the repository:

    - [realtime_sync.py]: class [FileWatcher], which snapshots the
      modification times of the files under a directory, compares two
      consecutive snapshots and runs [git add] / [git commit] / [git push]
      when they differ;
    - [auto_sync.py]: [auto_commit_and_push], gated by [git status];
    - [sync_now.py]: [quick_sync], the one-shot variant.

    Modelling conventions.

    - A Python [str] is a [string]; every [ascii] stands for one character.
    - A Python [dict] is an insertion-ordered association list
      ([pydict]); iteration follows the list, assignment to a present key
      keeps the key's position.
    - A modification time ([st_mtime]) is a value of a type [mtime] with
      decidable equality; Python's [!=] on two of them is the negation
      of that equality (the not-a-number float, for which [!=] is
      reflexive, is no modification time).
    - The outside world (file system, [git], wall clock) is a value of a
      type [W] with the operations of classes [FileSystem] and [Shell].  A computation
      takes a world and returns its result, the console lines and commands
      it issued, and the world it leaves behind.
    - [print] calls are recorded as values of type [message], one
      constructor per source line, carrying the interpolated values.
    - A [while True] loop is run for a given number of rounds, after
      which [KeyboardInterrupt] ends it.  The [__main__] blocks, which
      only parse the interval argument, are left out. *)

From Stdlib Require Import List String Ascii Bool Arith ZArith Lia.
From Stdlib Require Import Numbers.DecimalString.
Import ListNotations.

Open Scope string_scope.
Open Scope list_scope.

(** ** Python strings *)

Module PyStr.

(** [pat in s] for two strings: [pat] occurs in [s] as a contiguous run. *)
Fixpoint contains (pat s : string) : bool :=
  if String.prefix pat s then true
  else match s with
       | EmptyString => false
       | String _ s' => contains pat s'
       end.

(** [str.isspace] for a single character with code point below 256. *)
Definition isspace (c : ascii) : bool :=
  let n := nat_of_ascii c in
  ((9 <=? n)%nat && (n <=? 13)%nat) || ((28 <=? n)%nat && (n <=? 32)%nat)
  || (n =? 133)%nat || (n =? 160)%nat.

Fixpoint lstrip (s : string) : string :=
  match s with
  | EmptyString => EmptyString
  | String c s' => if isspace c then lstrip s' else s
  end.

Fixpoint rstrip (s : string) : string :=
  match s with
  | EmptyString => EmptyString
  | String c s' =>
      match rstrip s' with
      | EmptyString => if isspace c then EmptyString else String c EmptyString
      | r => String c r
      end
  end.

(** [s.strip()] *)
Definition strip (s : string) : string := rstrip (lstrip s).

(** The double quote character, for the [-m "..."] argument. *)
Definition dquote : string := String (ascii_of_nat 34) EmptyString.

(** [str(n)] / [f"{n}"] for a non-negative integer. *)
Definition of_nat (n : nat) : string := NilEmpty.string_of_uint (Nat.to_uint n).

End PyStr.

(** ** Python dictionaries with string keys *)

Module PyDict.

Section Dict.
Context {V : Type}.

Definition pydict := list (string * V).

Definition empty : pydict := [].

(** [d.get(k)]: [None] when [k not in d], else [Some d[k]]. *)
Fixpoint get (d : pydict) (k : string) : option V :=
  match d with
  | [] => None
  | (k', v) :: d' => if String.eqb k k' then Some v else get d' k
  end.

(** [k in d] *)
Definition mem (d : pydict) (k : string) : bool :=
  match get d k with Some _ => true | None => false end.

(** [d[k] = v] *)
Fixpoint set (d : pydict) (k : string) (v : V) : pydict :=
  match d with
  | [] => [(k, v)]
  | (k', v') :: d' =>
      if String.eqb k k' then (k', v) :: d' else (k', v') :: set d' k v
  end.

(** [d.items()] and iteration over [d] *)
Definition items (d : pydict) : list (string * V) := d.
Definition keys (d : pydict) : list string := map fst d.

(** A dictionary holds each key once. *)
Definition wf (d : pydict) : Prop := NoDup (keys d).

End Dict.

Arguments pydict V : clear implicits.

End PyDict.

Import PyDict.

(** ** The outside world *)

(** What [subprocess.run(command, shell=True, capture_output=True,
    text=True)] does: it completes with a return code and the two
    captured streams, or it raises an [Exception] (whose [str] is [e]). *)
Inductive proc_outcome : Type :=
| Completed (returncode : Z) (stdout stderr : string)
| Raised (e : string).

(** One path yielded by [watch_directory.rglob('*')]: its [str], what
    [is_file()] answers, and what [stat().st_mtime] gives ([None] when
    [stat] raises [OSError] or [PermissionError]).  A listing of such
    entries describes a scan in which every [is_file()] call answers;
    [Raising.scan] below covers the scans in which one of them raises. *)
Record dir_entry (mtime : Type) : Type := {
  path_str : string;
  is_file : bool;
  st_mtime : option mtime
}.

Arguments path_str {mtime} _.
Arguments is_file {mtime} _.
Arguments st_mtime {mtime} _.

(** The file system under the watched directory. *)
Class FileSystem (mtime W : Type) : Type := {
  (** the paths under the watched directory, in enumeration order *)
  rglob : W -> list (dir_entry mtime)
}.

(** The shell, the clock and the passing of time. *)
Class Shell (W : Type) : Type := {
  (** running a shell command changes the world *)
  subprocess_run : string -> W -> proc_outcome * W;
  (** [datetime.now().strftime("%Y-%m-%d %H:%M:%S")] *)
  strftime_now : W -> string;
  (** [time.sleep(seconds)]: the world moves on *)
  sleep : Z -> W -> W
}.

(** ** Console lines *)

Inductive message : Type :=
(* realtime_sync.py *)
| FilesChanged (n : nat)            (* Files changed: {n} *)
| FileLine (file : string)          (* one of the first five files *)
| MoreFiles (n : nat)               (* ... and {n} more files *)
| FailedToAdd (error : string)      (* Failed to add: {error} *)
| NoChangesToCommit                 (* No changes to commit *)
| FailedToCommit (error : string)   (* Failed to commit: {error} *)
| PushingToGitHub                   (* Pushing to GitHub... *)
| FailedToPush (error : string)     (* Failed to push: {error} *)
| SyncedToGitHub                    (* Successfully synced to GitHub! *)
| RealtimeSyncStarted               (* Real-time GitHub Sync Started *)
| Rule (n : nat)                    (* "=" * n *)
| WatchingDirectory                 (* Watching: / Watching directory: ... *)
| RepositoryLink                    (* Repository: / GitHub repository: ... *)
| CheckInterval (seconds : Z)       (* Check interval: {seconds} seconds *)
| PressCtrlC                        (* Press Ctrl+C to stop *)
| Monitoring (n : nat)              (* Monitoring {n} files *)
| RealtimeSyncStopped               (* Real-time sync stopped *)
(* auto_sync.py *)
| NoChangesDetected                 (* No changes detected *)
| ChangesDetected                   (* Changes detected, committing... *)
| FailedToAddChanges (error : string) (* Failed to add changes: {error} *)
| AutoSyncStarted (seconds : Z)     (* Auto-sync started - checking every ... *)
| AutoSyncStopped                   (* Auto-sync stopped *)
(* sync_now.py *)
| QuickSyncTitle                    (* Quick Sync to GitHub *)
| NoChangesToSync                   (* No changes to sync *)
| ChangesFound                      (* Changes found: *)
| Output (output : string)          (* print(output) *)
| AddingChanges                     (* Adding changes... *)
| Committing                        (* Committing... *)
| ViewAt.                           (* View at: https://github.com/... *)

(** The lines that report a failed step. *)
Definition is_error_report (m : message) : bool :=
  match m with
  | FailedToAdd _ | FailedToAddChanges _ | FailedToCommit _
  | FailedToPush _ => true
  | _ => false
  end.

(** What a computation does that can be observed from outside. *)
Inductive event : Type :=
| Ran (command : string)
| Printed (m : message)
| Slept (seconds : Z).

(** The shell commands of a trace, in order. *)
Fixpoint commands (tr : list event) : list string :=
  match tr with
  | [] => []
  | Ran c :: tr' => c :: commands tr'
  | _ :: tr' => commands tr'
  end.

(** The console lines of a trace, in order. *)
Fixpoint console (tr : list event) : list message :=
  match tr with
  | [] => []
  | Printed m :: tr' => m :: console tr'
  | _ :: tr' => console tr'
  end.

(** A trace reports an error when one of its lines does. *)
Definition reports_error (tr : list event) : bool :=
  existsb is_error_report (console tr).

(** ** Computations over the world *)

Definition M (W A : Type) : Type := W -> A * list event * W.

Definition ret {W A} (a : A) : M W A := fun w => (a, [], w).

Definition bind {W A B} (m : M W A) (k : A -> M W B) : M W B :=
  fun w =>
    let '(a, t1, w1) := m w in
    let '(b, t2, w2) := k a w1 in
    (b, t1 ++ t2, w2).

Declare Scope comp_scope.
Delimit Scope comp_scope with comp.

Notation "x <- m ;; k" := (bind m (fun x => k))
  (at level 61, m at next level, right associativity) : comp_scope.
Notation "' pat <- m ;; k" := (bind m (fun x => match x with pat => k end))
  (at level 61, pat pattern, m at next level, right associativity) : comp_scope.
Notation "m ;; k" := (bind m (fun _ => k))
  (at level 61, right associativity) : comp_scope.

Definition print {W} (m : message) : M W unit :=
  fun w => (tt, [Printed m], w).

(** [for x in xs: body(x)] *)
Fixpoint for_each {W A} (xs : list A) (body : A -> M W unit) : M W unit :=
  match xs with
  | [] => ret tt
  | x :: xs' => bind (body x) (fun _ => for_each xs' body)
  end.

Definition result_of {W A} (r : A * list event * W) : A := fst (fst r).
Definition trace_of {W A} (r : A * list event * W) : list event := snd (fst r).
Definition world_of {W A} (r : A * list event * W) : W := snd r.

(** The three command texts shared by the scripts. *)
Definition git_add : string := "git add .".
Definition git_push : string := "git push origin main".
Definition git_status : string := "git status --porcelain".

(** [f'git commit -m "{commit_message}"'] *)
Definition git_commit (commit_message : string) : string :=
  ("git commit -m " ++ PyStr.dquote ++ commit_message ++ PyStr.dquote)%string.

(** ** realtime_sync.py *)

Module RealtimeSync.

Section FileWatcher.
Context {mtime W : Type}.
Context (mtime_eq_dec : forall a b : mtime, {a = b} + {a <> b}).
Context `{FileSystem mtime W} `{Shell W}.

Local Open Scope comp_scope.

(** The one attribute of a [FileWatcher] that changes.
    ([watch_directory] is what [rglob] enumerates, and
    [ignore_patterns] is the constant below.) *)
Record FileWatcher : Type := { last_modified : pydict mtime }.

Definition ignore_patterns : list string :=
  [".git"; "__pycache__"; "node_modules"; ".env";
   "trading_dashboard.db"; ".kiro"; ".vscode"].

Definition should_ignore (file_path : string) : bool :=
  let path_str := file_path in
  existsb (fun pattern => PyStr.contains pattern path_str) ignore_patterns.

(** The body of the [for] loop of [get_file_times]. *)
Definition record_file (file_times : pydict mtime) (file_path : dir_entry mtime)
  : pydict mtime :=
  if is_file file_path && negb (should_ignore (path_str file_path)) then
    match st_mtime file_path with
    | Some t => PyDict.set file_times (path_str file_path) t
    | None => file_times                       (* except ...: continue *)
    end
  else file_times.

Definition scan (entries : list (dir_entry mtime)) : pydict mtime :=
  fold_left record_file entries PyDict.empty.

Definition get_file_times : M W (pydict mtime) :=
  fun w => (scan (rglob w), [], w).

Definition run_git_command (command : string) : M W (bool * string * string) :=
  fun w =>
    match subprocess_run command w with
    | (Completed returncode stdout stderr, w') =>
        ((Z.eqb returncode 0, stdout, stderr), [Ran command], w')
    | (Raised e, w') =>
        ((false, "", e), [Ran command], w')
    end.

Definition now : M W string := fun w => (strftime_now w, [], w).

Definition sync_to_github (changed_files : list string) : M W bool :=
  print (FilesChanged (List.length changed_files)) ;;
  for_each (firstn 5 changed_files) (fun file => print (FileLine file)) ;;
  (if (5 <? List.length changed_files)%nat
   then print (MoreFiles (List.length changed_files - 5))
   else ret tt) ;;
  (* Add changes *)
  '(success, output, error) <- run_git_command git_add ;;
  if negb success then
    print (FailedToAdd error) ;;
    ret false
  else
    (* Commit *)
    timestamp <- now ;;
    let files_summary :=
      (PyStr.of_nat (List.length changed_files) ++ " files")%string in
    let commit_message :=
      ("Real-time sync: " ++ files_summary ++ " updated - " ++ timestamp)%string in
    '(success, output, error) <- run_git_command (git_commit commit_message) ;;
    if negb success then
      if PyStr.contains "nothing to commit" error then
        print NoChangesToCommit ;;
        ret true
      else
        print (FailedToCommit error) ;;
        ret false
    else
      (* Push *)
      print PushingToGitHub ;;
      '(success, output, error) <- run_git_command git_push ;;
      if negb success then
        print (FailedToPush error) ;;
        ret false
      else
        print SyncedToGitHub ;;
        ret true.

(** [file_path not in last_modified or last_modified[file_path] != mod_time] *)
Definition is_changed (last_modified : pydict mtime)
    (file_path : string) (mod_time : mtime) : bool :=
  match PyDict.get last_modified file_path with
  | None => true
  | Some t => if mtime_eq_dec t mod_time then false else true
  end.

Definition deleted_marker : string := " (deleted)".

(** The two [for] loops of [watch] that fill [changed_files]. *)
Definition detect_changes (last_modified current_times : pydict mtime)
  : list string :=
  let changed_files := [] in
  (* Check for changes *)
  let changed_files :=
    fold_left
      (fun changed_files '(file_path, mod_time) =>
         if is_changed last_modified file_path mod_time
         then changed_files ++ [file_path]
         else changed_files)
      (PyDict.items current_times) changed_files in
  (* Check for deleted files *)
  let changed_files :=
    fold_left
      (fun changed_files file_path =>
         if negb (PyDict.mem current_times file_path)
         then changed_files ++ [(file_path ++ deleted_marker)%string]
         else changed_files)
      (PyDict.keys last_modified) changed_files in
  changed_files.

Definition sleep_for (seconds : Z) : M W unit :=
  fun w => (tt, [Slept seconds], sleep seconds w).

(** One round of the [while True] loop of [watch]. *)
Definition watch_iteration (check_interval : Z) (self : FileWatcher)
  : M W FileWatcher :=
  current_times <- get_file_times ;;
  let changed_files := detect_changes (last_modified self) current_times in
  self <- (match changed_files with
           | [] => ret self
           | _ :: _ =>
               sync_to_github changed_files ;;
               ret {| last_modified := current_times |}
           end) ;;
  sleep_for check_interval ;;
  ret self.

(** The loop, stopped by [KeyboardInterrupt] after [rounds] rounds. *)
Fixpoint watch_loop (rounds : nat) (check_interval : Z) (self : FileWatcher)
  : M W FileWatcher :=
  match rounds with
  | O => ret self
  | S rounds' =>
      self <- watch_iteration check_interval self ;;
      watch_loop rounds' check_interval self
  end.

Definition watch (rounds : nat) (check_interval : Z) (self : FileWatcher)
  : M W FileWatcher :=
  print RealtimeSyncStarted ;;
  print (Rule 40) ;;
  print WatchingDirectory ;;
  print RepositoryLink ;;
  print (CheckInterval check_interval) ;;
  print PressCtrlC ;;
  (* Initial scan *)
  times <- get_file_times ;;
  let self := {| last_modified := times |} in
  print (Monitoring (List.length (last_modified self))) ;;
  self <- watch_loop rounds check_interval self ;;
  print RealtimeSyncStopped ;;
  ret self.

End FileWatcher.

End RealtimeSync.

(** ** auto_sync.py *)

Module AutoSync.

Section AutoSync.
Context {W : Type} `{Shell W}.

Local Open Scope comp_scope.

Definition run_command (command : string) : M W (bool * string * string) :=
  fun w =>
    match subprocess_run command w with
    | (Completed returncode stdout stderr, w') =>
        ((Z.eqb returncode 0, stdout, stderr), [Ran command], w')
    | (Raised e, w') =>
        ((false, "", e), [Ran command], w')
    end.

Definition now : M W string := fun w => (strftime_now w, [], w).

Definition sleep_for (seconds : Z) : M W unit :=
  fun w => (tt, [Slept seconds], sleep seconds w).

Definition check_git_changes : M W bool :=
  '(success, output, error) <- run_command git_status ;;
  ret (success && negb (String.eqb (PyStr.strip output) "")).

Definition auto_commit_and_push : M W bool :=
  changes <- check_git_changes ;;
  if negb changes then
    print NoChangesDetected ;;
    ret true
  else
    print ChangesDetected ;;
    (* Add all changes *)
    '(success, output, error) <- run_command git_add ;;
    if negb success then
      print (FailedToAddChanges error) ;;
      ret false
    else
      (* Commit with timestamp *)
      timestamp <- now ;;
      let commit_message :=
        ("Auto-sync: Update trading dashboard - " ++ timestamp)%string in
      '(success, output, error) <- run_command (git_commit commit_message) ;;
      if negb success then
        print (FailedToCommit error) ;;
        ret false
      else
        (* Push to GitHub *)
        print PushingToGitHub ;;
        '(success, output, error) <- run_command git_push ;;
        if negb success then
          print (FailedToPush error) ;;
          ret false
        else
          print SyncedToGitHub ;;
          ret true.

(** The loop of [watch_and_sync], stopped by [KeyboardInterrupt] after
    [rounds] rounds. *)
Fixpoint sync_loop (rounds : nat) (interval : Z) : M W unit :=
  match rounds with
  | O => ret tt
  | S rounds' =>
      auto_commit_and_push ;;
      sleep_for interval ;;
      sync_loop rounds' interval
  end.

Definition watch_and_sync (rounds : nat) (interval : Z) : M W unit :=
  print (AutoSyncStarted interval) ;;
  print WatchingDirectory ;;
  print RepositoryLink ;;
  print PressCtrlC ;;
  sync_loop rounds interval ;;
  print AutoSyncStopped.

End AutoSync.

End AutoSync.

(** ** sync_now.py *)

Module SyncNow.

Section SyncNow.
Context {W : Type} `{Shell W}.

Local Open Scope comp_scope.

Definition run_command (command : string) : M W (bool * string * string) :=
  fun w =>
    match subprocess_run command w with
    | (Completed returncode stdout stderr, w') =>
        ((Z.eqb returncode 0, stdout, stderr), [Ran command], w')
    | (Raised e, w') =>
        ((false, "", e), [Ran command], w')
    end.

Definition now : M W string := fun w => (strftime_now w, [], w).

(** [quick_sync] returns [None] on every path. *)
Definition quick_sync : M W unit :=
  print QuickSyncTitle ;;
  print (Rule 30) ;;
  (* Check for changes *)
  '(success, output, error) <- run_command git_status ;;
  if negb success || String.eqb (PyStr.strip output) "" then
    print NoChangesToSync
  else
    print ChangesFound ;;
    print (Output output) ;;
    (* Add all changes *)
    print AddingChanges ;;
    '(success, output, error) <- run_command git_add ;;
    if negb success then
      print (FailedToAdd error)
    else
      (* Commit *)
      timestamp <- now ;;
      let commit_message :=
        ("Quick sync: Trading dashboard updates - " ++ timestamp)%string in
      print Committing ;;
      '(success, output, error) <- run_command (git_commit commit_message) ;;
      if negb success then
        print (FailedToCommit error)
      else
        (* Push *)
        print PushingToGitHub ;;
        '(success, output, error) <- run_command git_push ;;
        if negb success then
          print (FailedToPush error)
        else
          print SyncedToGitHub ;;
          print ViewAt.

End SyncNow.

End SyncNow.

(** ** The scripts with exceptions made explicit

    The definitions above give [subprocess.run] an outcome and no
    computation of [M] can raise.  Here a computation may raise: its
    result is a value or the [str] of the [Exception] that left it, and
    [try]/[except] is an operation.  The command runner, the publish
    sequences of [realtime_sync.py] and [auto_sync.py] and the scan of
    [get_file_times] are written out again in this form. *)

Module Raising.

Section Commands.
Context {W : Type} `{Shell W}.

Definition E (A : Type) : Type := W -> (A + string) * list event * W.

Definition ret {A : Type} (a : A) : E A := fun w => (inl a, [], w).

(** Sequencing: an exception of the first part skips the second. *)
Definition bind {A B : Type} (m : E A) (k : A -> E B) : E B :=
  fun w =>
    match m w with
    | (inl a, t1, w1) => let '(r, t2, w2) := k a w1 in (r, t1 ++ t2, w2)
    | (inr e, t1, w1) => (inr e, t1, w1)
    end.

(** [try: body  except Exception as e: handler(str(e))] *)
Definition try_except {A : Type} (body : E A) (handler : string -> E A) : E A :=
  fun w =>
    match body w with
    | (inl a, t1, w1) => (inl a, t1, w1)
    | (inr e, t1, w1) => let '(r, t2, w2) := handler e w1 in (r, t1 ++ t2, w2)
    end.

(** A computation of [M] seen as one that does not raise. *)
Definition lift {A : Type} (m : M W A) : E A :=
  fun w => let '(a, t, w') := m w in (inl a, t, w').

(** [e] never raises and does what [m] does. *)
Definition agrees {A : Type} (e : E A) (m : M W A) : Prop :=
  forall w, e w = lift m w.

Local Notation "x <- m ;; k" := (bind m (fun x => k))
  (at level 61, m at next level, right associativity).
Local Notation "' pat <- m ;; k" := (bind m (fun x => match x with pat => k end))
  (at level 61, pat pattern, m at next level, right associativity).
Local Notation "m ;; k" := (bind m (fun _ => k))
  (at level 61, right associativity).

(** [subprocess.run(command, ...)]: the completed process with its
    [returncode], [stdout] and [stderr], or an exception. *)
Definition subprocess_run_call (command : string) : E (Z * string * string) :=
  fun w =>
    match subprocess_run command w with
    | (Completed returncode stdout stderr, w') =>
        (inl (returncode, stdout, stderr), [Ran command], w')
    | (Raised e, w') => (inr e, [Ran command], w')
    end.

Definition print (m : message) : E unit := fun w => (inl tt, [Printed m], w).

Definition now : E string := fun w => (inl (strftime_now w), [], w).

Fixpoint for_each {A : Type} (xs : list A) (body : A -> E unit) : E unit :=
  match xs with
  | [] => ret tt
  | x :: xs' => bind (body x) (fun _ => for_each xs' body)
  end.

(** [run_command] of [auto_sync.py] and [sync_now.py], and
    [run_git_command] of [realtime_sync.py]: the same body. *)
Definition run_command (command : string) : E (bool * string * string) :=
  try_except
    ('(returncode, stdout, stderr) <- subprocess_run_call command ;;
     ret (Z.eqb returncode 0, stdout, stderr))
    (fun e => ret (false, "", e)).

(** [FileWatcher.sync_to_github] *)
Definition sync_to_github (changed_files : list string) : E bool :=
  print (FilesChanged (List.length changed_files)) ;;
  for_each (firstn 5 changed_files) (fun file => print (FileLine file)) ;;
  (if (5 <? List.length changed_files)%nat
   then print (MoreFiles (List.length changed_files - 5))
   else ret tt) ;;
  '(success, output, error) <- run_command git_add ;;
  if negb success then
    print (FailedToAdd error) ;;
    ret false
  else
    timestamp <- now ;;
    let files_summary :=
      (PyStr.of_nat (List.length changed_files) ++ " files")%string in
    let commit_message :=
      ("Real-time sync: " ++ files_summary ++ " updated - " ++ timestamp)%string in
    '(success, output, error) <- run_command (git_commit commit_message) ;;
    if negb success then
      if PyStr.contains "nothing to commit" error then
        print NoChangesToCommit ;;
        ret true
      else
        print (FailedToCommit error) ;;
        ret false
    else
      print PushingToGitHub ;;
      '(success, output, error) <- run_command git_push ;;
      if negb success then
        print (FailedToPush error) ;;
        ret false
      else
        print SyncedToGitHub ;;
        ret true.

(** [check_git_changes] of [auto_sync.py] *)
Definition check_git_changes : E bool :=
  '(success, output, error) <- run_command git_status ;;
  ret (success && negb (String.eqb (PyStr.strip output) "")).

(** [auto_commit_and_push] of [auto_sync.py] *)
Definition auto_commit_and_push : E bool :=
  changes <- check_git_changes ;;
  if negb changes then
    print NoChangesDetected ;;
    ret true
  else
    print ChangesDetected ;;
    '(success, output, error) <- run_command git_add ;;
    if negb success then
      print (FailedToAddChanges error) ;;
      ret false
    else
      timestamp <- now ;;
      let commit_message :=
        ("Auto-sync: Update trading dashboard - " ++ timestamp)%string in
      '(success, output, error) <- run_command (git_commit commit_message) ;;
      if negb success then
        print (FailedToCommit error) ;;
        ret false
      else
        print PushingToGitHub ;;
        '(success, output, error) <- run_command git_push ;;
        if negb success then
          print (FailedToPush error) ;;
          ret false
        else
          print SyncedToGitHub ;;
          ret true.

End Commands.

Section Scan.
Context {mtime : Type}.

(** What [file_path.is_file()] does: it answers, or (for an error other
    than a missing path) it raises. *)
Inductive is_file_outcome : Type :=
| Answers (b : bool)
| IsFileRaises (e : string).

(** One path yielded by [rglob('*')], with what the two probes of the
    loop body do on it. *)
Record probed_entry : Type := {
  probed_path : string;
  probed_is_file : is_file_outcome;
  probed_mtime : option mtime     (* [None]: [stat()] raises [OSError] *)
}.

(** The body of the [for] loop of [get_file_times]: [is_file()] is called
    outside the [try], so what it raises leaves the loop. *)
Definition record_file (file_times : pydict mtime) (file_path : probed_entry)
  : pydict mtime + string :=
  match probed_is_file file_path with
  | IsFileRaises e => inr e
  | Answers is_file =>
      if is_file && negb (RealtimeSync.should_ignore (probed_path file_path))
      then
        match probed_mtime file_path with
        | Some t => inl (PyDict.set file_times (probed_path file_path) t)
        | None => inl file_times                 (* except ...: continue *)
        end
      else inl file_times
  end.

Fixpoint scan_from (file_times : pydict mtime) (entries : list probed_entry)
  : pydict mtime + string :=
  match entries with
  | [] => inl file_times
  | file_path :: rest =>
      match record_file file_times file_path with
      | inl file_times' => scan_from file_times' rest
      | inr e => inr e
      end
  end.

(** [get_file_times] on a listing: the snapshot, or the exception that
    ended the scan. *)
Definition scan (entries : list probed_entry) : pydict mtime + string :=
  scan_from PyDict.empty entries.


End Scan.

Arguments probed_entry mtime : clear implicits.

End Raising.

(** ** Reading the outcome of a command

    The three components that the command runners return for an outcome
    of [subprocess.run]. *)

Definition outcome_ok (o : proc_outcome) : bool :=
  match o with
  | Completed returncode _ _ => Z.eqb returncode 0
  | Raised _ => false
  end.

Definition outcome_out (o : proc_outcome) : string :=
  match o with
  | Completed _ stdout _ => stdout
  | Raised _ => ""
  end.

Definition outcome_err (o : proc_outcome) : string :=
  match o with
  | Completed _ _ stderr => stderr
  | Raised e => e
  end.

(** The commit commands that the three scripts build at time [timestamp]. *)
Definition realtime_commit (n : nat) (timestamp : string) : string :=
  git_commit ("Real-time sync: " ++ (PyStr.of_nat n ++ " files")
              ++ " updated - " ++ timestamp)%string.

Definition auto_commit (timestamp : string) : string :=
  git_commit ("Auto-sync: Update trading dashboard - " ++ timestamp)%string.

Definition quick_commit (timestamp : string) : string :=
  git_commit ("Quick sync: Trading dashboard updates - " ++ timestamp)%string.


(** The lines that [sync_to_github] prints before its first command. *)
Definition sync_header (changed_files : list string) : list event :=
  [Printed (FilesChanged (List.length changed_files))]
  ++ map (fun file => Printed (FileLine file)) (firstn 5 changed_files)
  ++ (if (5 <? List.length changed_files)%nat
      then [Printed (MoreFiles (List.length changed_files - 5))]
      else []).

(** ** A scripted world

    A world in which the directory listing is fixed, the clock stands
    still and every shell command takes its outcome from a queue of
    prepared replies; used to run the scripts on concrete inputs. *)

Module Scripted.

Record world : Type := {
  listing : list (dir_entry Z);
  replies : list proc_outcome;
  clock : string
}.

Definition reply (command : string) (w : world) : proc_outcome * world :=
  match replies w with
  | [] => (Raised "no such command", w)
  | r :: rs => (r, {| listing := listing w; replies := rs; clock := clock w |})
  end.

#[global] Instance scripted_fs : FileSystem Z world :=
  {| rglob := listing |}.

#[global] Instance scripted_shell : Shell world :=
  {| subprocess_run := reply;
     strftime_now := clock;
     sleep := fun _ w => w |}.

Definition file (p : string) (t : Z) : dir_entry Z :=
  {| path_str := p; is_file := true; st_mtime := Some t |}.

Definition ok : proc_outcome := Completed 0 "" "".

Definition nl : string := String (ascii_of_nat 10) EmptyString.

(** What [git commit] answers in a clean working tree: exit status 1,
    the message on standard output, nothing on standard error. *)
Definition clean_tree : proc_outcome :=
  Completed 1
    ("On branch main" ++ nl ++ "nothing to commit, working tree clean" ++ nl)
    "".

Definition noon : string := "2024-01-01 12:00:00".

Definition with_replies (rs : list proc_outcome) : world :=
  {| listing := []; replies := rs; clock := noon |}.

(** [git status] finds a modified file, [git add] succeeds, and by the
    time of [git commit] the working tree is clean again. *)
Definition race : world :=
  with_replies [Completed 0 " M app.py" ""; ok; clean_tree].

(** The same race as the file watcher meets it (it runs no [git status]). *)
Definition watcher_race : world := with_replies [ok; clean_tree].

(** [git status] prints nothing: no uncommitted change. *)
Definition clean : world := with_replies [Completed 0 "" ""].

(** [git status] itself fails. *)
Definition no_repository : world :=
  with_replies [Completed 128 "" "fatal: not a git repository"].

(** A directory with one watched file and one file under [.git], in which
    [git add] fails. *)
Definition locked : world :=
  {| listing := [file "app.py" 7; file ".git/config" 3];
     replies := [Completed 128 "" "fatal: Unable to create index.lock"];
     clock := noon |}.

(** A world in which every command succeeds and prints nothing. *)
#[global] Instance idle_shell : Shell unit :=
  {| subprocess_run := fun _ w => (ok, w);
     strftime_now := fun _ => noon;
     sleep := fun _ w => w |}.

(** A listing in which a symbolic link and an unreadable file stand next
    to two watched files. *)
Definition mixed_listing : list (dir_entry Z) :=
  [file "app.py" 7;
   {| path_str := "link"; is_file := false; st_mtime := Some 1%Z |};
   {| path_str := "gone.tmp"; is_file := true; st_mtime := None |};
   file "node_modules/x.js" 2;
   file "README.md" 9].

End Scripted.

(** ** Vocabulary for the properties *)

(** What one directory entry contributes to the snapshot: its path and
    modification time when it is a regular file, is not ignored and can
    be [stat]ed; nothing otherwise. *)
Definition snapshot_item {mtime : Type} (e : dir_entry mtime)
  : list (string * mtime) :=
  if is_file e && negb (RealtimeSync.should_ignore (path_str e)) then
    match st_mtime e with
    | Some t => [(path_str e, t)]
    | None => []
    end
  else [].

(** A baseline that holds each path once and no ignored path. *)
Definition clean_baseline {mtime : Type} (d : pydict mtime) : Prop :=
  NoDup (PyDict.keys d) /\
  forall k, In k (PyDict.keys d) -> RealtimeSync.should_ignore k = false.

(** The file names shown on the console, in order. *)
Fixpoint file_lines (tr : list event) : list string :=
  match tr with
  | [] => []
  | Printed (FileLine file) :: tr' => file :: file_lines tr'
  | _ :: tr' => file_lines tr'
  end.

(** The counts of the "... and n more files" lines, in order. *)
Fixpoint more_lines (tr : list event) : list nat :=
  match tr with
  | [] => []
  | Printed (MoreFiles n) :: tr' => n :: more_lines tr'
  | _ :: tr' => more_lines tr'
  end.

(** The lengths of the pauses of a trace, in order. *)
Fixpoint sleeps (tr : list event) : list Z :=
  match tr with
  | [] => []
  | Slept seconds :: tr' => seconds :: sleeps tr'
  | _ :: tr' => sleeps tr'
  end.

(** * Properties *)

(** ** Strings *)

Lemma prefix_app (p s : string) :
  String.prefix p s = true <-> exists post, s = (p ++ post)%string.
Proof.
  revert s; induction p as [|a p IH]; intros s.
  - split; [intros _; now exists s | intros _; now destruct s].
  - destruct s as [|b s]; simpl.
    + split; [discriminate | intros [post E]; discriminate].
    + destruct (ascii_dec a b) as [->|Hne].
      * rewrite IH. split; intros [post E]; exists post.
        -- now rewrite E.
        -- now inversion E.
      * split; [discriminate | intros [post E]; inversion E; congruence].
Qed.

Lemma contains_unfold (pat s : string) :
  PyStr.contains pat s =
  if String.prefix pat s then true
  else match s with
       | EmptyString => false
       | String _ s' => PyStr.contains pat s'
       end.
Proof. destruct s; reflexivity. Qed.

(** Python's [pat in s] holds exactly when [s] splits around [pat]. *)
Lemma contains_spec (pat s : string) :
  PyStr.contains pat s = true <->
  exists pre post, s = (pre ++ pat ++ post)%string.
Proof.
  induction s as [|c s IH]; rewrite contains_unfold.
  - destruct (String.prefix pat "") eqn:E.
    + split; [intros _ | reflexivity].
      apply prefix_app in E. destruct E as [post E]. now exists "", post.
    + split; [discriminate|]. intros (pre & post & E').
      destruct pre; simpl in E'.
      * assert (String.prefix pat "" = true) by (apply prefix_app; eauto).
        congruence.
      * discriminate.
  - destruct (String.prefix pat (String c s)) eqn:E.
    + split; [intros _ | reflexivity].
      apply prefix_app in E. destruct E as [post E]. now exists "", post.
    + rewrite IH. split.
      * intros (pre & post & ->). now exists (String c pre), post.
      * intros (pre & post & E').
        destruct pre as [|c' pre]; simpl in E'.
        -- assert (String.prefix pat (String c s) = true)
             by (apply prefix_app; eauto).
           congruence.
        -- inversion E'. eauto.
Qed.

Lemma length_app (s1 s2 : string) :
  String.length (s1 ++ s2) = String.length s1 + String.length s2.
Proof. induction s1 as [|c s1 IH]; simpl; congruence. Qed.

(** Appending a non-empty suffix gives another string. *)
Lemma app_nonempty_neq (s suffix : string) :
  suffix <> "" -> (s ++ suffix)%string <> s.
Proof.
  intros Hne E. apply (f_equal String.length) in E.
  rewrite length_app in E. destruct suffix; [congruence|simpl in E; lia].
Qed.

(** ** Dictionaries *)

Section DictFacts.
Context {V : Type}.
Implicit Types (d : pydict V) (k : string) (v : V).

Lemma get_Some_In d k v : PyDict.get d k = Some v -> In (k, v) d.
Proof.
  induction d as [|[k' v'] d IH]; simpl; [discriminate|].
  destruct (String.eqb_spec k k') as [->|Hne].
  - intros [= ->]. now left.
  - intros Hg. right. auto.
Qed.

Lemma get_None_keys d k : PyDict.get d k = None <-> ~ In k (PyDict.keys d).
Proof.
  induction d as [|[k' v'] d IH]; simpl.
  - tauto.
  - destruct (String.eqb_spec k k') as [->|Hne].
    + split; [discriminate | intros Hn; exfalso; apply Hn; now left].
    + rewrite IH. split.
      * intros Hn [E|Hin]; [now apply Hne | contradiction].
      * intros Hn Hin. apply Hn. now right.
Qed.

Lemma mem_keys d k : PyDict.mem d k = true <-> In k (PyDict.keys d).
Proof.
  unfold PyDict.mem. destruct (PyDict.get d k) eqn:E.
  - split; [intros _ | reflexivity].
    apply get_Some_In in E.
    change k with (fst (k, v)). now apply in_map.
  - split; [discriminate|]. intros Hin. now apply get_None_keys in E.
Qed.

Lemma mem_false_keys d k : PyDict.mem d k = false <-> ~ In k (PyDict.keys d).
Proof.
  rewrite <- mem_keys. destruct (PyDict.mem d k); split; congruence.
Qed.

Lemma In_get_wf d k v : PyDict.wf d -> In (k, v) d -> PyDict.get d k = Some v.
Proof.
  unfold PyDict.wf.
  induction d as [|[k' v'] d IH]; simpl; [tauto|].
  intros Hnd [E|Hin]; inversion Hnd as [|? ? Hnotin Hnd']; subst.
  - inversion E; subst. now rewrite String.eqb_refl.
  - destruct (String.eqb_spec k k') as [->|Hne]; [|auto].
    exfalso. apply Hnotin. change k' with (fst (k', v)). now apply in_map.
Qed.

Lemma keys_set d k v :
  forall k0, In k0 (PyDict.keys (PyDict.set d k v)) <->
             k0 = k \/ In k0 (PyDict.keys d).
Proof.
  induction d as [|[k' v'] d IH]; simpl; intros k0.
  - intuition congruence.
  - destruct (String.eqb_spec k k') as [->|Hne]; simpl.
    + intuition congruence.
    + rewrite IH. intuition congruence.
Qed.

Lemma wf_set d k v : PyDict.wf d -> PyDict.wf (PyDict.set d k v).
Proof.
  unfold PyDict.wf.
  induction d as [|[k' v'] d IH]; simpl; intros Hnd.
  - constructor; [simpl; tauto | constructor].
  - inversion Hnd as [|? ? Hnotin Hnd']; subst.
    destruct (String.eqb_spec k k') as [->|Hne]; simpl.
    + now constructor.
    + constructor; [|auto].
      intros Hin. apply keys_set in Hin. destruct Hin as [->|Hin]; auto.
Qed.

End DictFacts.

(** ** Loops that collect into a list *)

Lemma fold_left_collect {A B : Type} (g : list B -> A -> list B)
    (p : A -> bool) (f : A -> B) :
  (forall acc x, g acc x = if p x then acc ++ [f x] else acc) ->
  forall l acc, fold_left g l acc = acc ++ map f (filter p l).
Proof.
  intros Hg l; induction l as [|x l IH]; intros acc; simpl.
  - now rewrite app_nil_r.
  - rewrite IH, Hg. destruct (p x); simpl; [|reflexivity].
    now rewrite <- app_assoc.
Qed.

(** ** The snapshot and the detection pass *)

Section DetectFacts.
Context {mtime : Type}.
Context (mtime_eq_dec : forall a b : mtime, {a = b} + {a <> b}).
Implicit Types (last cur : pydict mtime) (p : string) (t : mtime).

(** The detection pass as two comprehensions. *)
Lemma detect_changes_eq last cur :
  RealtimeSync.detect_changes mtime_eq_dec last cur =
  map fst
    (filter (fun kv : string * mtime =>
               RealtimeSync.is_changed mtime_eq_dec last (fst kv) (snd kv))
            (PyDict.items cur))
  ++ map (fun k : string => (k ++ RealtimeSync.deleted_marker)%string)
       (filter (fun k : string => negb (PyDict.mem cur k)) (PyDict.keys last)).
Proof.
  unfold RealtimeSync.detect_changes.
  rewrite (fold_left_collect _
             (fun kv : string * mtime =>
                RealtimeSync.is_changed mtime_eq_dec last (fst kv) (snd kv))
             fst)
    by (intros acc [k v]; reflexivity).
  now rewrite (fold_left_collect _
                 (fun k : string => negb (PyDict.mem cur k))
                 (fun k : string => (k ++ RealtimeSync.deleted_marker)%string))
    by (intros acc k; reflexivity).
Qed.

Lemma is_changed_true last p t :
  RealtimeSync.is_changed mtime_eq_dec last p t = true <->
  PyDict.get last p = None \/
  exists t0, PyDict.get last p = Some t0 /\ t0 <> t.
Proof.
  unfold RealtimeSync.is_changed.
  destruct (PyDict.get last p) as [t0|].
  - destruct (mtime_eq_dec t0 t) as [->|Hne]; split.
    + discriminate.
    + intros [E|(t1 & E & Hne)]; congruence.
    + intros _. right. now exists t0.
    + reflexivity.
  - split; [now left | reflexivity].
Qed.

Lemma is_changed_false last p t :
  RealtimeSync.is_changed mtime_eq_dec last p t = false <->
  PyDict.get last p = Some t.
Proof.
  unfold RealtimeSync.is_changed.
  destruct (PyDict.get last p) as [t0|].
  - destruct (mtime_eq_dec t0 t) as [->|Hne]; split; try congruence.
  - split; discriminate.
Qed.

Lemma filter_nil_iff {A : Type} (f : A -> bool) (l : list A) :
  filter f l = [] <-> forall x, In x l -> f x = false.
Proof.
  induction l as [|a l IH]; simpl.
  - tauto.
  - destruct (f a) eqn:E.
    + split; [discriminate|]. intros Hall.
      specialize (Hall a (or_introl eq_refl)). congruence.
    + rewrite IH. split.
      * intros Hall x [->|Hin]; auto.
      * intros Hall x Hin. auto.
Qed.

(** No change is detected exactly when every item of the current
    snapshot is in the previous one with the same time and every key of
    the previous snapshot is still there. *)
Lemma detect_nil_items last cur :
  RealtimeSync.detect_changes mtime_eq_dec last cur = [] <->
  (forall p t, In (p, t) (PyDict.items cur) -> PyDict.get last p = Some t) /\
  (forall p, In p (PyDict.keys last) -> In p (PyDict.keys cur)).
Proof.
  rewrite detect_changes_eq. split.
  - intros E. apply app_eq_nil in E. destruct E as [E1 E2].
    apply map_eq_nil in E1. apply map_eq_nil in E2.
    rewrite filter_nil_iff in E1. rewrite filter_nil_iff in E2. split.
    + intros p t Hin. apply is_changed_false. exact (E1 (p, t) Hin).
    + intros p Hin. apply mem_keys.
      specialize (E2 p Hin). now destruct (PyDict.mem cur p).
  - intros [H1 H2].
    assert (E1 : filter
                   (fun kv : string * mtime =>
                      RealtimeSync.is_changed mtime_eq_dec last (fst kv) (snd kv))
                   (PyDict.items cur) = []).
    { apply filter_nil_iff. intros [p t] Hin. simpl.
      apply is_changed_false. auto. }
    assert (E2 : filter (fun k : string => negb (PyDict.mem cur k))
                   (PyDict.keys last) = []).
    { apply filter_nil_iff. intros p Hin.
      apply H2, mem_keys in Hin. now rewrite Hin. }
    now rewrite E1, E2.
Qed.

Lemma detect_nil_iff last cur :
  PyDict.wf cur ->
  (RealtimeSync.detect_changes mtime_eq_dec last cur = [] <->
   (forall p, In p (PyDict.keys last) <-> In p (PyDict.keys cur)) /\
   (forall p t0 t,
       PyDict.get last p = Some t0 -> PyDict.get cur p = Some t -> t0 = t)).
Proof.
  intros Hwf. rewrite detect_nil_items. split.
  - intros [H1 H2]. split.
    + intros p. split; [auto|]. intros Hin.
      apply in_map_iff in Hin. destruct Hin as ([k t] & <- & Hin).
      apply H1 in Hin. simpl.
      apply mem_keys. unfold PyDict.mem. now rewrite Hin.
    + intros p t0 t Hl Hc. apply get_Some_In in Hc.
      apply H1 in Hc. congruence.
  - intros [Hk Hv]. split.
    + intros p t Hin.
      assert (Hc : PyDict.get cur p = Some t) by now apply In_get_wf.
      assert (Hin' : In p (PyDict.keys last)).
      { apply Hk. change p with (fst (p, t)). now apply in_map. }
      apply mem_keys in Hin'. unfold PyDict.mem in Hin'.
      destruct (PyDict.get last p) as [t0|] eqn:El; [|discriminate].
      f_equal. eauto.
    + intros p. apply Hk.
Qed.

Lemma detect_same d : PyDict.wf d -> RealtimeSync.detect_changes mtime_eq_dec d d = [].
Proof.
  intros Hwf. apply detect_nil_iff; [assumption|]. split.
  - tauto.
  - congruence.
Qed.

(** *** The snapshot *)

Lemma record_file_wf (d : pydict mtime) e :
  PyDict.wf d -> PyDict.wf (RealtimeSync.record_file d e).
Proof.
  intros Hwf. unfold RealtimeSync.record_file.
  destruct (is_file e && negb (RealtimeSync.should_ignore (path_str e)));
    [|assumption].
  destruct (st_mtime e); [now apply wf_set | assumption].
Qed.

Lemma fold_record_wf entries (d : pydict mtime) :
  PyDict.wf d -> PyDict.wf (fold_left RealtimeSync.record_file entries d).
Proof.
  revert d; induction entries as [|e entries IH]; simpl; intros d Hwf.
  - assumption.
  - now apply IH, record_file_wf.
Qed.

Lemma scan_wf entries : PyDict.wf (RealtimeSync.scan (mtime:=mtime) entries).
Proof. apply fold_record_wf. constructor. Qed.

Lemma record_file_keys (d : pydict mtime) e k :
  In k (PyDict.keys (RealtimeSync.record_file d e)) ->
  In k (PyDict.keys d) \/
  (k = path_str e /\ is_file e = true /\
   RealtimeSync.should_ignore k = false /\ st_mtime e <> None).
Proof.
  unfold RealtimeSync.record_file.
  destruct (is_file e) eqn:Ef; simpl; [|now left].
  destruct (RealtimeSync.should_ignore (path_str e)) eqn:Ei; simpl;
    [now left|].
  destruct (st_mtime e) as [t|] eqn:Es; [|now left].
  intros Hin. apply keys_set in Hin. destruct Hin as [->|Hin]; [|now left].
  right. repeat split; [assumption|discriminate].
Qed.

Lemma fold_record_keys entries (d : pydict mtime) k :
  In k (PyDict.keys (fold_left RealtimeSync.record_file entries d)) ->
  In k (PyDict.keys d) \/
  exists e, In e entries /\ k = path_str e /\ is_file e = true /\
            RealtimeSync.should_ignore k = false /\ st_mtime e <> None.
Proof.
  revert d; induction entries as [|e entries IH]; simpl; intros d Hin.
  - now left.
  - apply IH in Hin. destruct Hin as [Hin|(e' & He' & Hrest)].
    + apply record_file_keys in Hin. destruct Hin as [Hin|Hrest].
      * now left.
      * right. exists e. split; [now left | assumption].
    + right. exists e'. split; [now right | assumption].
Qed.

End DetectFacts.


(** ** Claims about the detection pass and the snapshot *)

Section DetectionClaims.
Context {mtime : Type}.
Context (mtime_eq_dec : forall a b : mtime, {a = b} + {a <> b}).

(** C1. For a previous snapshot [S1] and a current snapshot [S2], the
    change list of the detection pass is empty if and only if [S1] and
    [S2] have the same keys and, at every key, the same timestamp. *)
Theorem detect_changes_empty_iff (S1 S2 : pydict mtime) :
  PyDict.wf S2 ->
  (RealtimeSync.detect_changes mtime_eq_dec S1 S2 = [] <->
   (forall p, In p (PyDict.keys S1) <-> In p (PyDict.keys S2)) /\
   (forall p t1 t2,
       PyDict.get S1 p = Some t1 -> PyDict.get S2 p = Some t2 -> t1 = t2)).
Proof.
  intros Hwf. now apply detect_nil_iff.
Qed.

(** C2. The change list is the changed paths followed by the deleted
    paths: first every path of the current snapshot that is absent from
    the previous one or has another timestamp there, then every path of
    the previous snapshot that is absent from the current one, the latter
    with the suffix [" (deleted)"], which makes a tagged entry differ from
    its path. *)
Theorem detect_changes_changed_then_deleted (previous current : pydict mtime) :
  exists changed deleted : list string,
    RealtimeSync.detect_changes mtime_eq_dec previous current =
      changed
      ++ map (fun p => (p ++ RealtimeSync.deleted_marker)%string) deleted
    /\ (forall p, In p changed <->
          exists t, In (p, t) (PyDict.items current) /\
            (PyDict.get previous p = None \/
             exists t0, PyDict.get previous p = Some t0 /\ t0 <> t))
    /\ (forall p, In p deleted <->
          In p (PyDict.keys previous) /\ ~ In p (PyDict.keys current))
    /\ (forall p, (p ++ RealtimeSync.deleted_marker)%string <> p).
Proof.
  exists (map fst
            (filter (fun kv => RealtimeSync.is_changed mtime_eq_dec previous
                                 (fst kv) (snd kv))
                    (PyDict.items current))),
         (filter (fun k => negb (PyDict.mem current k)) (PyDict.keys previous)).
  split; [apply detect_changes_eq|]. split.
  - intros p. rewrite in_map_iff. split.
    + intros ([k t] & <- & Hin). apply filter_In in Hin.
      destruct Hin as [Hin Hch]. simpl in *.
      exists t. split; [assumption|]. now apply is_changed_true in Hch.
    + intros (t & Hin & Hch). exists (p, t). split; [reflexivity|].
      apply filter_In. split; [assumption|].
      simpl. now apply is_changed_true.
  - split.
    + intros p. rewrite filter_In. rewrite negb_true_iff.
      now rewrite mem_false_keys.
    + intros p. now apply app_nonempty_neq.
Qed.

End DetectionClaims.

Section SnapshotClaims.
Context {mtime W : Type}.
Context (mtime_eq_dec : forall a b : mtime, {a = b} + {a <> b}).
Context `{FileSystem mtime W}.

(** C6. A path whose string contains one of the ignore patterns is never
    a key of the snapshot built by [get_file_times], whatever the
    directory holds and whatever the file's modification time is. *)
Theorem ignored_path_not_in_snapshot (w : W) (path pattern pre post : string) :
  In pattern RealtimeSync.ignore_patterns ->
  path = (pre ++ pattern ++ post)%string ->
  ~ In path (PyDict.keys (result_of (RealtimeSync.get_file_times w))).
Proof.
  intros Hpat Hsplit Hin.
  assert (Hign : RealtimeSync.should_ignore path = true).
  { unfold RealtimeSync.should_ignore. apply existsb_exists.
    exists pattern. split; [assumption|]. apply contains_spec. eauto. }
  unfold RealtimeSync.get_file_times, result_of in Hin. simpl in Hin.
  apply fold_record_keys in Hin.
  destruct Hin as [Hin|(e & _ & _ & _ & Hno & _)].
  - contradiction.
  - congruence.
Qed.

(** C9. Two scans of the same directory state give two snapshots between
    which the detection pass finds no change. *)
Theorem rescan_detects_nothing (w1 w2 : W) :
  rglob w1 = rglob w2 ->
  RealtimeSync.detect_changes mtime_eq_dec
    (result_of (RealtimeSync.get_file_times w1))
    (result_of (RealtimeSync.get_file_times w2)) = [].
Proof.
  intros Hsame. unfold RealtimeSync.get_file_times, result_of. simpl.
  rewrite Hsame. apply detect_same, scan_wf.
Qed.

End SnapshotClaims.


(** ** Traces *)

Lemma commands_app (t1 t2 : list event) :
  commands (t1 ++ t2) = commands t1 ++ commands t2.
Proof.
  induction t1 as [|[c|m|z] t1 IH]; simpl; congruence.
Qed.

Lemma console_app (t1 t2 : list event) :
  console (t1 ++ t2) = console t1 ++ console t2.
Proof.
  induction t1 as [|[c|m|z] t1 IH]; simpl; congruence.
Qed.

Lemma reports_error_app (t1 t2 : list event) :
  reports_error (t1 ++ t2) = reports_error t1 || reports_error t2.
Proof.
  unfold reports_error. now rewrite console_app, existsb_app.
Qed.

Lemma for_each_print {W A : Type} (f : A -> message) (xs : list A) (w : W) :
  for_each xs (fun x => print (f x)) w =
  (tt, map (fun x => Printed (f x)) xs, w).
Proof.
  induction xs as [|x xs IH]; cbn [for_each]; [reflexivity|].
  unfold bind.
  change (print (f x) w) with (tt, [Printed (f x)], w).
  cbv beta iota. rewrite IH. reflexivity.
Qed.

Lemma sync_header_commands (changed_files : list string) :
  commands (sync_header changed_files) = [].
Proof.
  unfold sync_header. rewrite !commands_app. simpl.
  assert (E : forall l : list string,
             commands (map (fun file => Printed (FileLine file)) l) = []).
  { induction l; simpl; auto. }
  rewrite E. now destruct (5 <? List.length changed_files)%nat.
Qed.

Lemma sync_header_quiet (changed_files : list string) :
  reports_error (sync_header changed_files) = false.
Proof.
  unfold sync_header. rewrite !reports_error_app.
  assert (E : forall l : list string,
             reports_error (map (fun file => Printed (FileLine file)) l) = false).
  { induction l; simpl; auto. }
  rewrite E. now destruct (5 <? List.length changed_files)%nat.
Qed.

(** ** The publish sequences, step by step *)

Section PublishFacts.
Context {W : Type} `{Shell W}.

Lemma run_git_command_eq (command : string) (w : W) :
  RealtimeSync.run_git_command command w =
  let (o, w') := subprocess_run command w in
  ((outcome_ok o, outcome_out o, outcome_err o), [Ran command], w').
Proof.
  unfold RealtimeSync.run_git_command.
  now destruct (subprocess_run command w) as [[rc so se|e] w'].
Qed.

Lemma auto_run_command_eq (command : string) (w : W) :
  AutoSync.run_command command w =
  let (o, w') := subprocess_run command w in
  ((outcome_ok o, outcome_out o, outcome_err o), [Ran command], w').
Proof.
  unfold AutoSync.run_command.
  now destruct (subprocess_run command w) as [[rc so se|e] w'].
Qed.

Lemma quick_run_command_eq (command : string) (w : W) :
  SyncNow.run_command command w =
  let (o, w') := subprocess_run command w in
  ((outcome_ok o, outcome_out o, outcome_err o), [Ran command], w').
Proof.
  unfold SyncNow.run_command.
  now destruct (subprocess_run command w) as [[rc so se|e] w'].
Qed.

(** [sync_to_github] with its early returns laid out. *)
Lemma sync_to_github_steps (changed_files : list string) (w : W) :
  RealtimeSync.sync_to_github changed_files w =
  let (o1, w1) := subprocess_run git_add w in
  if negb (outcome_ok o1) then
    (false,
     sync_header changed_files
     ++ [Ran git_add; Printed (FailedToAdd (outcome_err o1))], w1)
  else
    let commit :=
      realtime_commit (List.length changed_files) (strftime_now w1) in
    let (o2, w2) := subprocess_run commit w1 in
    if negb (outcome_ok o2) then
      if PyStr.contains "nothing to commit" (outcome_err o2) then
        (true,
         sync_header changed_files
         ++ [Ran git_add; Ran commit; Printed NoChangesToCommit], w2)
      else
        (false,
         sync_header changed_files
         ++ [Ran git_add; Ran commit;
             Printed (FailedToCommit (outcome_err o2))], w2)
    else
      let (o3, w3) := subprocess_run git_push w2 in
      if negb (outcome_ok o3) then
        (false,
         sync_header changed_files
         ++ [Ran git_add; Ran commit; Printed PushingToGitHub; Ran git_push;
             Printed (FailedToPush (outcome_err o3))], w3)
      else
        (true,
         sync_header changed_files
         ++ [Ran git_add; Ran commit; Printed PushingToGitHub; Ran git_push;
             Printed SyncedToGitHub], w3).
Proof.
  unfold RealtimeSync.sync_to_github, sync_header, realtime_commit.
  unfold bind at 1 2 3. unfold print at 1. rewrite for_each_print.
  set (more := if (5 <? List.length changed_files)%nat
               then print (MoreFiles (List.length changed_files - 5))
               else ret tt).
  assert (Emore : more w =
    (tt, (if (5 <? List.length changed_files)%nat
          then [Printed (MoreFiles (List.length changed_files - 5))]
          else []), w)).
  { unfold more. now destruct (5 <? List.length changed_files)%nat. }
  rewrite Emore. clear Emore more.
  unfold bind, RealtimeSync.now, print, ret.
  rewrite run_git_command_eq.
  destruct (subprocess_run git_add w) as [o1 w1].
  destruct (outcome_ok o1); simpl.
  - rewrite run_git_command_eq.
    destruct (subprocess_run _ w1) as [o2 w2].
    destruct (outcome_ok o2); simpl.
    + rewrite run_git_command_eq.
      destruct (subprocess_run git_push w2) as [o3 w3].
      destruct (outcome_ok o3); simpl;
        repeat rewrite <- app_assoc; reflexivity.
    + destruct (PyStr.contains _ (outcome_err o2)); simpl;
        repeat rewrite <- app_assoc; reflexivity.
  - repeat rewrite <- app_assoc; reflexivity.
Qed.

Lemma check_git_changes_eq (w : W) :
  AutoSync.check_git_changes w =
  let (o, w') := subprocess_run git_status w in
  (outcome_ok o && negb (String.eqb (PyStr.strip (outcome_out o)) ""),
   [Ran git_status], w').
Proof.
  unfold AutoSync.check_git_changes, bind, ret.
  rewrite auto_run_command_eq.
  now destruct (subprocess_run git_status w) as [o w'].
Qed.

(** [auto_commit_and_push] with its early returns laid out. *)
Lemma auto_commit_and_push_steps (w : W) :
  AutoSync.auto_commit_and_push w =
  let (o0, w0) := subprocess_run git_status w in
  if negb (outcome_ok o0
           && negb (String.eqb (PyStr.strip (outcome_out o0)) "")) then
    (true, [Ran git_status; Printed NoChangesDetected], w0)
  else
    let (o1, w1) := subprocess_run git_add w0 in
    if negb (outcome_ok o1) then
      (false,
       [Ran git_status; Printed ChangesDetected; Ran git_add;
        Printed (FailedToAddChanges (outcome_err o1))], w1)
    else
      let commit := auto_commit (strftime_now w1) in
      let (o2, w2) := subprocess_run commit w1 in
      if negb (outcome_ok o2) then
        (false,
         [Ran git_status; Printed ChangesDetected; Ran git_add; Ran commit;
          Printed (FailedToCommit (outcome_err o2))], w2)
      else
        let (o3, w3) := subprocess_run git_push w2 in
        if negb (outcome_ok o3) then
          (false,
           [Ran git_status; Printed ChangesDetected; Ran git_add; Ran commit;
            Printed PushingToGitHub; Ran git_push;
            Printed (FailedToPush (outcome_err o3))], w3)
        else
          (true,
           [Ran git_status; Printed ChangesDetected; Ran git_add; Ran commit;
            Printed PushingToGitHub; Ran git_push;
            Printed SyncedToGitHub], w3).
Proof.
  unfold AutoSync.auto_commit_and_push, auto_commit.
  unfold bind at 1. rewrite check_git_changes_eq.
  destruct (subprocess_run git_status w) as [o0 w0].
  destruct (outcome_ok o0
            && negb (String.eqb (PyStr.strip (outcome_out o0)) ""));
    [|reflexivity].
  unfold bind, AutoSync.now, print, ret; simpl.
  rewrite auto_run_command_eq.
  destruct (subprocess_run git_add w0) as [o1 w1].
  destruct (outcome_ok o1); simpl; [|reflexivity].
  rewrite auto_run_command_eq.
  destruct (subprocess_run _ w1) as [o2 w2].
  destruct (outcome_ok o2); simpl; [|reflexivity].
  rewrite auto_run_command_eq.
  destruct (subprocess_run git_push w2) as [o3 w3].
  now destruct (outcome_ok o3).
Qed.

(** [quick_sync] with its early returns laid out. *)
Lemma quick_sync_steps (w : W) :
  SyncNow.quick_sync w =
  let (o0, w0) := subprocess_run git_status w in
  if negb (outcome_ok o0) || String.eqb (PyStr.strip (outcome_out o0)) "" then
    (tt,
     [Printed QuickSyncTitle; Printed (Rule 30); Ran git_status;
      Printed NoChangesToSync], w0)
  else
    let (o1, w1) := subprocess_run git_add w0 in
    if negb (outcome_ok o1) then
      (tt,
       [Printed QuickSyncTitle; Printed (Rule 30); Ran git_status;
        Printed ChangesFound; Printed (Output (outcome_out o0));
        Printed AddingChanges; Ran git_add;
        Printed (FailedToAdd (outcome_err o1))], w1)
    else
      let commit := quick_commit (strftime_now w1) in
      let (o2, w2) := subprocess_run commit w1 in
      if negb (outcome_ok o2) then
        (tt,
         [Printed QuickSyncTitle; Printed (Rule 30); Ran git_status;
          Printed ChangesFound; Printed (Output (outcome_out o0));
          Printed AddingChanges; Ran git_add; Printed Committing; Ran commit;
          Printed (FailedToCommit (outcome_err o2))], w2)
      else
        let (o3, w3) := subprocess_run git_push w2 in
        if negb (outcome_ok o3) then
          (tt,
           [Printed QuickSyncTitle; Printed (Rule 30); Ran git_status;
            Printed ChangesFound; Printed (Output (outcome_out o0));
            Printed AddingChanges; Ran git_add; Printed Committing;
            Ran commit; Printed PushingToGitHub; Ran git_push;
            Printed (FailedToPush (outcome_err o3))], w3)
        else
          (tt,
           [Printed QuickSyncTitle; Printed (Rule 30); Ran git_status;
            Printed ChangesFound; Printed (Output (outcome_out o0));
            Printed AddingChanges; Ran git_add; Printed Committing;
            Ran commit; Printed PushingToGitHub; Ran git_push;
            Printed SyncedToGitHub; Printed ViewAt], w3).
Proof.
  unfold SyncNow.quick_sync, quick_commit.
  unfold bind, SyncNow.now, print, ret; simpl.
  rewrite quick_run_command_eq.
  destruct (subprocess_run git_status w) as [o0 w0].
  destruct (negb (outcome_ok o0)
            || String.eqb (PyStr.strip (outcome_out o0)) ""); simpl;
    [reflexivity|].
  rewrite quick_run_command_eq.
  destruct (subprocess_run git_add w0) as [o1 w1].
  destruct (outcome_ok o1); simpl; [|reflexivity].
  rewrite quick_run_command_eq.
  destruct (subprocess_run _ w1) as [o2 w2].
  destruct (outcome_ok o2); simpl; [|reflexivity].
  rewrite quick_run_command_eq.
  destruct (subprocess_run git_push w2) as [o3 w3].
  now destruct (outcome_ok o3).
Qed.

End PublishFacts.


(** ** No exception leaves the runner or the publish sequences *)

Section RaisingFacts.
Context {W : Type} `{Shell W}.

Lemma agrees_ret {A : Type} (a : A) :
  Raising.agrees (W:=W) (Raising.ret a) (ret a).
Proof. intros w. reflexivity. Qed.

Lemma agrees_bind {A B : Type} (e : Raising.E A) (m : M W A)
    (ke : A -> Raising.E B) (km : A -> M W B) :
  Raising.agrees e m ->
  (forall a, Raising.agrees (ke a) (km a)) ->
  Raising.agrees (Raising.bind e ke) (bind m km).
Proof.
  intros He Hk w. unfold Raising.bind, bind, Raising.lift.
  rewrite (He w). unfold Raising.lift.
  destruct (m w) as [[a t1] w1].
  rewrite (Hk a w1). unfold Raising.lift.
  now destruct (km a w1) as [[b t2] w2].
Qed.

Lemma agrees_print (m : message) :
  Raising.agrees (W:=W) (Raising.print m) (print m).
Proof. intros w. reflexivity. Qed.

Lemma agrees_for_each {A : Type} (xs : list A)
    (be : A -> Raising.E unit) (bm : A -> M W unit) :
  (forall x, Raising.agrees (be x) (bm x)) ->
  Raising.agrees (Raising.for_each xs be) (for_each xs bm).
Proof.
  intros Hb. induction xs as [|x xs IH]; cbn [Raising.for_each for_each].
  - apply agrees_ret.
  - apply agrees_bind; [apply Hb | intros _; exact IH].
Qed.

(** The [try]/[except] of the runner catches what [subprocess.run]
    raises. *)
Lemma run_command_caught (command : string) (w : W) :
  Raising.run_command command w =
  let (o, w') := subprocess_run command w in
  (inl (outcome_ok o, outcome_out o, outcome_err o), [Ran command], w').
Proof.
  unfold Raising.run_command, Raising.try_except, Raising.bind,
    Raising.subprocess_run_call, Raising.ret.
  now destruct (subprocess_run command w) as [[rc so se|e] w'].
Qed.

Lemma agrees_run_git_command (command : string) :
  Raising.agrees (Raising.run_command command)
    (RealtimeSync.run_git_command command).
Proof.
  intros w. rewrite run_command_caught. unfold Raising.lift.
  rewrite run_git_command_eq.
  now destruct (subprocess_run command w) as [o w'].
Qed.

Lemma agrees_auto_run_command (command : string) :
  Raising.agrees (Raising.run_command command) (AutoSync.run_command command).
Proof.
  intros w. rewrite run_command_caught. unfold Raising.lift.
  rewrite auto_run_command_eq.
  now destruct (subprocess_run command w) as [o w'].
Qed.

Lemma agrees_if {A : Type} (b : bool) (e1 e2 : Raising.E A) (m1 m2 : M W A) :
  Raising.agrees e1 m1 -> Raising.agrees e2 m2 ->
  Raising.agrees (if b then e1 else e2) (if b then m1 else m2).
Proof. now destruct b. Qed.

Lemma sync_to_github_agrees (changed_files : list string) :
  Raising.agrees (Raising.sync_to_github changed_files)
    (RealtimeSync.sync_to_github changed_files).
Proof.
  unfold Raising.sync_to_github, RealtimeSync.sync_to_github.
  apply agrees_bind; [apply agrees_print | intros _].
  apply agrees_bind;
    [apply agrees_for_each; intros x; apply agrees_print | intros _].
  apply agrees_bind;
    [apply agrees_if; [apply agrees_print | apply agrees_ret] | intros _].
  apply agrees_bind; [apply agrees_run_git_command | intros [[s1 o1] e1]].
  apply agrees_if.
  { apply agrees_bind; [apply agrees_print | intros _; apply agrees_ret]. }
  apply agrees_bind; [intros w; reflexivity | intros timestamp].
  apply agrees_bind; [apply agrees_run_git_command | intros [[s2 o2] e2]].
  apply agrees_if.
  { apply agrees_if;
      (apply agrees_bind; [apply agrees_print | intros _; apply agrees_ret]). }
  apply agrees_bind; [apply agrees_print | intros _].
  apply agrees_bind; [apply agrees_run_git_command | intros [[s3 o3] e3]].
  apply agrees_if;
    (apply agrees_bind; [apply agrees_print | intros _; apply agrees_ret]).
Qed.

Lemma check_git_changes_agrees :
  Raising.agrees Raising.check_git_changes AutoSync.check_git_changes.
Proof.
  unfold Raising.check_git_changes, AutoSync.check_git_changes.
  apply agrees_bind; [apply agrees_auto_run_command | intros [[s o] e]].
  apply agrees_ret.
Qed.

Lemma auto_commit_and_push_agrees :
  Raising.agrees Raising.auto_commit_and_push AutoSync.auto_commit_and_push.
Proof.
  unfold Raising.auto_commit_and_push, AutoSync.auto_commit_and_push.
  apply agrees_bind; [apply check_git_changes_agrees | intros changes].
  apply agrees_if.
  { apply agrees_bind; [apply agrees_print | intros _; apply agrees_ret]. }
  apply agrees_bind; [apply agrees_print | intros _].
  apply agrees_bind; [apply agrees_auto_run_command | intros [[s1 o1] e1]].
  apply agrees_if.
  { apply agrees_bind; [apply agrees_print | intros _; apply agrees_ret]. }
  apply agrees_bind; [intros w; reflexivity | intros timestamp].
  apply agrees_bind; [apply agrees_auto_run_command | intros [[s2 o2] e2]].
  apply agrees_if.
  { apply agrees_bind; [apply agrees_print | intros _; apply agrees_ret]. }
  apply agrees_bind; [apply agrees_print | intros _].
  apply agrees_bind; [apply agrees_auto_run_command | intros [[s3 o3] e3]].
  apply agrees_if;
    (apply agrees_bind; [apply agrees_print | intros _; apply agrees_ret]).
Qed.

End RaisingFacts.

(** ** Claims about the command runner and the publish sequences *)

Ltac trace_facts :=
  unfold result_of, trace_of, world_of; cbn [fst snd];
  rewrite ?commands_app, ?sync_header_commands,
          ?reports_error_app, ?sync_header_quiet; simpl.

Ltac in_trace :=
  unfold trace_of; cbn [fst snd];
  try (apply in_or_app; right); simpl; tauto.

Ltac step := cbn [negb]; cbv zeta.

Section PublishClaims.
Context {W : Type} `{Shell W}.

(** C8. Whatever [subprocess.run] does, the command runner returns a
    triple of success flag, standard output and standard error and
    raises nothing: the triple of the completed command, and
    [(False, "", str(e))] when running the command raised [e].  So no
    exception leaves the publish sequences [sync_to_github] and
    [auto_commit_and_push] either: written with exceptions, they return
    what the exception-free definitions return. *)
Theorem run_command_total (command : string) (changed_files : list string)
    (w : W) :
  (exists (triple : bool * string * string) (w' : W),
     Raising.run_command command w = (inl triple, [Ran command], w') /\
     w' = snd (subprocess_run command w) /\
     triple =
       match fst (subprocess_run command w) with
       | Completed returncode stdout stderr =>
           (Z.eqb returncode 0, stdout, stderr)
       | Raised e => (false, "", e)
       end /\
     RealtimeSync.run_git_command command w = (triple, [Ran command], w') /\
     AutoSync.run_command command w = (triple, [Ran command], w') /\
     SyncNow.run_command command w = (triple, [Ran command], w')) /\
  Raising.sync_to_github changed_files w =
    Raising.lift (RealtimeSync.sync_to_github changed_files) w /\
  Raising.auto_commit_and_push w =
    Raising.lift AutoSync.auto_commit_and_push w.
Proof.
  split; [|split].
  - rewrite run_command_caught.
    unfold RealtimeSync.run_git_command, AutoSync.run_command,
      SyncNow.run_command.
    destruct (subprocess_run command w) as [[rc so se|e] w'];
      eexists; eexists; repeat split.
  - apply sync_to_github_agrees.
  - apply auto_commit_and_push_agrees.
Qed.

(** The branch of lines 67-69: were the words ["nothing to commit"] in
    the captured standard error of the failed commit, [sync_to_github]
    would return [True], report no error and not push. *)
Lemma nothing_to_commit_on_stderr (changed_files : list string)
    (w w1 w2 : W) (o1 o2 : proc_outcome) :
  subprocess_run git_add w = (o1, w1) ->
  outcome_ok o1 = true ->
  subprocess_run
    (realtime_commit (List.length changed_files) (strftime_now w1)) w1
    = (o2, w2) ->
  outcome_ok o2 = false ->
  PyStr.contains "nothing to commit" (outcome_err o2) = true ->
  let r := RealtimeSync.sync_to_github changed_files w in
  result_of r = true /\
  reports_error (trace_of r) = false /\
  commands (trace_of r) =
    [git_add; realtime_commit (List.length changed_files) (strftime_now w1)].
Proof.
  intros E1 Hok1 E2 Hok2 Hmsg r. subst r.
  rewrite sync_to_github_steps, E1, Hok1. step.
  rewrite E2, Hok2. step. rewrite Hmsg.
  repeat split; trace_facts; reflexivity.
Qed.

(** C5. Each step of a publish sequence runs only if the step before it
    succeeded, and a failed step is reported and answered with [False];
    no other command is run.  First for [sync_to_github], then for
    [auto_commit_and_push] once its pre-check has found changes. *)
Theorem publish_steps_gated (changed_files : list string) (w : W) :
  (let r := RealtimeSync.sync_to_github changed_files w in
   let (o1, w1) := subprocess_run git_add w in
   if negb (outcome_ok o1) then
     commands (trace_of r) = [git_add] /\
     result_of r = false /\
     In (Printed (FailedToAdd (outcome_err o1))) (trace_of r)
   else
     let commit :=
       realtime_commit (List.length changed_files) (strftime_now w1) in
     let (o2, w2) := subprocess_run commit w1 in
     if negb (outcome_ok o2) then
       commands (trace_of r) = [git_add; commit] /\
       (if PyStr.contains "nothing to commit" (outcome_err o2) then True
        else result_of r = false /\
             In (Printed (FailedToCommit (outcome_err o2))) (trace_of r))
     else
       let (o3, w3) := subprocess_run git_push w2 in
       commands (trace_of r) = [git_add; commit; git_push] /\
       result_of r = outcome_ok o3 /\
       if outcome_ok o3 then reports_error (trace_of r) = false
       else In (Printed (FailedToPush (outcome_err o3))) (trace_of r))
  /\
  (let r := AutoSync.auto_commit_and_push w in
   let (o0, w0) := subprocess_run git_status w in
   if outcome_ok o0 && negb (String.eqb (PyStr.strip (outcome_out o0)) "")
   then
     let (o1, w1) := subprocess_run git_add w0 in
     if negb (outcome_ok o1) then
       commands (trace_of r) = [git_status; git_add] /\
       result_of r = false /\
       In (Printed (FailedToAddChanges (outcome_err o1))) (trace_of r)
     else
       let commit := auto_commit (strftime_now w1) in
       let (o2, w2) := subprocess_run commit w1 in
       if negb (outcome_ok o2) then
         commands (trace_of r) = [git_status; git_add; commit] /\
         result_of r = false /\
         In (Printed (FailedToCommit (outcome_err o2))) (trace_of r)
       else
         let (o3, w3) := subprocess_run git_push w2 in
         commands (trace_of r) = [git_status; git_add; commit; git_push] /\
         result_of r = outcome_ok o3 /\
         if outcome_ok o3 then reports_error (trace_of r) = false
         else In (Printed (FailedToPush (outcome_err o3))) (trace_of r)
   else True).
Proof.
  split.
  - cbv zeta. rewrite sync_to_github_steps.
    destruct (subprocess_run git_add w) as [o1 w1].
    destruct (outcome_ok o1); step.
    2:{ repeat split; [trace_facts; reflexivity | in_trace]. }
    destruct (subprocess_run _ w1) as [o2 w2].
    destruct (outcome_ok o2) eqn:Hok2; step.
    + destruct (subprocess_run git_push w2) as [o3 w3].
      destruct (outcome_ok o3); step;
        (split; [trace_facts; reflexivity | split; [reflexivity|] ]).
      * trace_facts; reflexivity.
      * in_trace.
    + destruct (PyStr.contains _ (outcome_err o2));
        (split; [trace_facts; reflexivity | ]); [exact I|].
      split; [reflexivity | in_trace].
  - cbv zeta. rewrite auto_commit_and_push_steps.
    destruct (subprocess_run git_status w) as [o0 w0].
    destruct (outcome_ok o0
              && negb (String.eqb (PyStr.strip (outcome_out o0)) ""));
      simpl; [|exact I].
    destruct (subprocess_run git_add w0) as [o1 w1].
    destruct (outcome_ok o1); simpl.
    2:{ repeat split. in_trace. }
    destruct (subprocess_run _ w1) as [o2 w2].
    destruct (outcome_ok o2); simpl.
    2:{ repeat split. in_trace. }
    destruct (subprocess_run git_push w2) as [o3 w3].
    destruct (outcome_ok o3); simpl; repeat split. in_trace.
Qed.

End PublishClaims.

Section PreCheckClaims.
Context {W : Type} `{Shell W}.

(** C7. In [auto_sync] and [sync_now], when the status pre-check finds no
    uncommitted change, the sync runs no command besides [git status]
    (no stage, commit or push) and ends without reporting an error;
    [auto_commit_and_push] returns [True]. *)
Theorem no_changes_short_circuit (w w' : W) (o : proc_outcome) :
  subprocess_run git_status w = (o, w') ->
  outcome_ok o && negb (String.eqb (PyStr.strip (outcome_out o)) "") = false ->
  (AutoSync.auto_commit_and_push w =
     (true, [Ran git_status; Printed NoChangesDetected], w') /\
   SyncNow.quick_sync w =
     (tt, [Printed QuickSyncTitle; Printed (Rule 30); Ran git_status;
           Printed NoChangesToSync], w')) /\
  (commands (trace_of (AutoSync.auto_commit_and_push w)) = [git_status] /\
   reports_error (trace_of (AutoSync.auto_commit_and_push w)) = false) /\
  (commands (trace_of (SyncNow.quick_sync w)) = [git_status] /\
   reports_error (trace_of (SyncNow.quick_sync w)) = false).
Proof.
  intros E Hno.
  assert (Ea : AutoSync.auto_commit_and_push w =
               (true, [Ran git_status; Printed NoChangesDetected], w')).
  { rewrite auto_commit_and_push_steps, E, Hno. reflexivity. }
  assert (Eq : SyncNow.quick_sync w =
               (tt, [Printed QuickSyncTitle; Printed (Rule 30); Ran git_status;
                     Printed NoChangesToSync], w')).
  { rewrite quick_sync_steps, E.
    replace (negb (outcome_ok o)
             || String.eqb (PyStr.strip (outcome_out o)) "") with true.
    - reflexivity.
    - destruct (outcome_ok o), (String.eqb (PyStr.strip (outcome_out o)) "");
        simpl in *; congruence. }
  rewrite Ea, Eq. repeat split.
Qed.

(** C10. In [auto_sync] and [sync_now] a failed [git status] is handled
    like a clean working tree: the sync prints its no-changes line, runs
    no stage, commit or push, and [auto_commit_and_push] returns [True];
    result and trace are those of a run in which [git status] succeeded
    with blank output. *)
Theorem failed_status_looks_like_no_changes (w w' : W) (o : proc_outcome) :
  subprocess_run git_status w = (o, w') ->
  outcome_ok o = false ->
  AutoSync.auto_commit_and_push w =
    (true, [Ran git_status; Printed NoChangesDetected], w') /\
  SyncNow.quick_sync w =
    (tt, [Printed QuickSyncTitle; Printed (Rule 30); Ran git_status;
          Printed NoChangesToSync], w') /\
  forall (v v' : W) (o' : proc_outcome),
    subprocess_run git_status v = (o', v') ->
    outcome_ok o' = true ->
    PyStr.strip (outcome_out o') = "" ->
    result_of (AutoSync.auto_commit_and_push v) =
      result_of (AutoSync.auto_commit_and_push w) /\
    trace_of (AutoSync.auto_commit_and_push v) =
      trace_of (AutoSync.auto_commit_and_push w) /\
    trace_of (SyncNow.quick_sync v) = trace_of (SyncNow.quick_sync w).
Proof.
  intros E Hfail.
  assert (Ea : AutoSync.auto_commit_and_push w =
               (true, [Ran git_status; Printed NoChangesDetected], w')).
  { rewrite auto_commit_and_push_steps, E, Hfail. reflexivity. }
  assert (Eq : SyncNow.quick_sync w =
               (tt, [Printed QuickSyncTitle; Printed (Rule 30); Ran git_status;
                     Printed NoChangesToSync], w')).
  { rewrite quick_sync_steps, E, Hfail. reflexivity. }
  split; [exact Ea|]. split; [exact Eq|].
  intros v v' o' E' Hok Hblank.
  rewrite Ea, Eq.
  rewrite auto_commit_and_push_steps, quick_sync_steps, E', Hok, Hblank.
  repeat split.
Qed.

End PreCheckClaims.

(** ** Claim about the watch loop *)

Section WatchClaims.
Context {mtime W : Type}.
Context (mtime_eq_dec : forall a b : mtime, {a = b} + {a <> b}).
Context `{FileSystem mtime W} `{Shell W}.

Lemma watch_iteration_eq (check_interval : Z)
    (self : RealtimeSync.FileWatcher) (w : W) :
  RealtimeSync.watch_iteration mtime_eq_dec check_interval self w =
  let current_times := RealtimeSync.scan (rglob w) in
  match RealtimeSync.detect_changes mtime_eq_dec
          (RealtimeSync.last_modified self) current_times with
  | [] => (self, [Slept check_interval], sleep check_interval w)
  | f :: fs =>
      let '(_, tr, w1) := RealtimeSync.sync_to_github (f :: fs) w in
      ({| RealtimeSync.last_modified := current_times |},
       tr ++ [Slept check_interval], sleep check_interval w1)
  end.
Proof.
  unfold RealtimeSync.watch_iteration, RealtimeSync.get_file_times,
    RealtimeSync.sleep_for, bind, ret.
  cbv beta iota zeta.
  destruct (RealtimeSync.detect_changes mtime_eq_dec
              (RealtimeSync.last_modified self) (RealtimeSync.scan (rglob w)))
    as [|f fs].
  - reflexivity.
  - destruct (RealtimeSync.sync_to_github (f :: fs) w) as [[b tr] w1].
    now rewrite app_nil_r.
Qed.


End WatchClaims.

(** ** The scripts on concrete inputs *)

Example contains_sample :
  PyStr.contains ".git" "src/.github/ci.yml" = true /\
  PyStr.contains ".env" "src/main.py" = false.
Proof. split; reflexivity. Qed.

Example strip_sample :
  PyStr.strip (String (ascii_of_nat 10) " M app.py  ") = "M app.py" /\
  PyStr.strip (String (ascii_of_nat 9) " ") = "".
Proof. split; reflexivity. Qed.

Example of_nat_sample : PyStr.of_nat 12 = "12" /\ PyStr.of_nat 0 = "0".
Proof. split; reflexivity. Qed.

Example detect_changes_sample :
  RealtimeSync.detect_changes Z.eq_dec
    [("a.txt", 1%Z); ("b.txt", 2%Z); ("c.txt", 3%Z)]
    [("a.txt", 1%Z); ("b.txt", 5%Z); ("d.txt", 4%Z)]
  = ["b.txt"; "d.txt"; "c.txt (deleted)"].
Proof. reflexivity. Qed.

Example scan_sample :
  result_of (RealtimeSync.get_file_times Scripted.locked) = [("app.py", 7%Z)].
Proof. reflexivity. Qed.

(** A round in which [git add] fails: the sync answers [False], and the
    new snapshot is the baseline of the next round all the same. *)
Example baseline_advances_after_failed_sync :
  result_of (RealtimeSync.sync_to_github ["app.py"] Scripted.locked) = false /\
  RealtimeSync.last_modified
    (result_of
       (RealtimeSync.watch_iteration Z.eq_dec 5
          {| RealtimeSync.last_modified := [] |} Scripted.locked))
  = [("app.py", 7%Z)].
Proof. split; reflexivity. Qed.

(** C1 on two equal one-file snapshots. *)
Lemma detect_changes_empty_iff_witness :
  PyDict.wf [("app.py", 7%Z)] /\
  (RealtimeSync.detect_changes Z.eq_dec [("app.py", 7%Z)] [("app.py", 7%Z)] = []
   <->
   (forall p, In p (PyDict.keys [("app.py", 7%Z)]) <->
              In p (PyDict.keys [("app.py", 7%Z)])) /\
   (forall p t1 t2,
       PyDict.get [("app.py", 7%Z)] p = Some t1 ->
       PyDict.get [("app.py", 7%Z)] p = Some t2 -> t1 = t2)).
Proof.
  assert (Hwf : PyDict.wf [("app.py", 7%Z)]).
  { unfold PyDict.wf. simpl. constructor; [simpl; tauto | constructor]. }
  split; [exact Hwf|].
  exact (detect_changes_empty_iff Z.eq_dec
           [("app.py", 7%Z)] [("app.py", 7%Z)] Hwf).
Defined.

(** C6 on a directory that holds [.git/config]. *)
Lemma ignored_path_not_in_snapshot_witness :
  In ".git" (RealtimeSync.ignore_patterns) /\
  ".git/config" = ("" ++ ".git" ++ "/config")%string /\
  ~ In ".git/config"
      (PyDict.keys (result_of (RealtimeSync.get_file_times Scripted.locked))).
Proof.
  assert (Hpat : In ".git" RealtimeSync.ignore_patterns) by (simpl; tauto).
  split; [exact Hpat|]. split; [reflexivity|].
  exact (ignored_path_not_in_snapshot Scripted.locked
           ".git/config" ".git" "" "/config" Hpat eq_refl).
Defined.

(** C9 on the same directory scanned twice. *)
Lemma rescan_detects_nothing_witness :
  rglob Scripted.locked = rglob Scripted.locked /\
  RealtimeSync.detect_changes Z.eq_dec
    (result_of (RealtimeSync.get_file_times Scripted.locked))
    (result_of (RealtimeSync.get_file_times Scripted.locked)) = [].
Proof.
  split; [reflexivity|].
  exact (rescan_detects_nothing Z.eq_dec Scripted.locked Scripted.locked
           eq_refl).
Defined.

(** C3. A commit that fails because there is nothing to commit: [git
    add] succeeds, [git commit] exits with status 1 and prints
    ["nothing to commit, working tree clean"] on standard output, with
    nothing on standard error.  [sync_to_github] looks for the words in
    standard error, finds none, reports a failed commit and returns
    [False]; [auto_commit_and_push] does not look at all and does the
    same. *)
Theorem nothing_to_commit_is_reported_as_failure :
  outcome_ok Scripted.clean_tree = false /\
  PyStr.contains "nothing to commit" (outcome_out Scripted.clean_tree) = true /\
  outcome_err Scripted.clean_tree = "" /\
  RealtimeSync.sync_to_github ["app.py"] Scripted.watcher_race =
    (false,
     [Printed (FilesChanged 1); Printed (FileLine "app.py"); Ran git_add;
      Ran (realtime_commit 1 Scripted.noon); Printed (FailedToCommit "")],
     Scripted.with_replies []) /\
  AutoSync.auto_commit_and_push Scripted.race =
    (false,
     [Ran git_status; Printed ChangesDetected; Ran git_add;
      Ran (auto_commit Scripted.noon); Printed (FailedToCommit "")],
     Scripted.with_replies []).
Proof. repeat split. Qed.

(** C7 on a clean working tree. *)
Lemma no_changes_short_circuit_witness :
  (AutoSync.auto_commit_and_push Scripted.clean =
     (true, [Ran git_status; Printed NoChangesDetected],
      Scripted.with_replies []) /\
   SyncNow.quick_sync Scripted.clean =
     (tt, [Printed QuickSyncTitle; Printed (Rule 30); Ran git_status;
           Printed NoChangesToSync], Scripted.with_replies [])) /\
  (commands (trace_of (AutoSync.auto_commit_and_push Scripted.clean))
     = [git_status] /\
   reports_error (trace_of (AutoSync.auto_commit_and_push Scripted.clean))
     = false) /\
  (commands (trace_of (SyncNow.quick_sync Scripted.clean)) = [git_status] /\
   reports_error (trace_of (SyncNow.quick_sync Scripted.clean)) = false).
Proof.
  exact (no_changes_short_circuit Scripted.clean (Scripted.with_replies [])
           (Completed 0 "" "") eq_refl eq_refl).
Defined.

(** C10 outside a repository. *)
Lemma failed_status_looks_like_no_changes_witness :
  AutoSync.auto_commit_and_push Scripted.no_repository =
    (true, [Ran git_status; Printed NoChangesDetected],
     Scripted.with_replies []) /\
  SyncNow.quick_sync Scripted.no_repository =
    (tt, [Printed QuickSyncTitle; Printed (Rule 30); Ran git_status;
          Printed NoChangesToSync], Scripted.with_replies []).
Proof.
  pose proof (failed_status_looks_like_no_changes Scripted.no_repository
                (Scripted.with_replies [])
                (Completed 128 "" "fatal: not a git repository")
                eq_refl eq_refl) as [Ha [Hq _]].
  split; [exact Ha | exact Hq].
Defined.


(** * Further properties *)

(** ** Dictionaries: assignment *)

Section DictSetFacts.
Context {V : Type}.
Implicit Types (d : pydict V) (k : string) (v : V).

Lemma set_fresh d k v :
  ~ In k (PyDict.keys d) -> PyDict.set d k v = d ++ [(k, v)].
Proof.
  induction d as [|[k' v'] d IH]; simpl; intros Hnot; [reflexivity|].
  destruct (String.eqb_spec k k') as [->|Hne].
  - exfalso. apply Hnot. now left.
  - f_equal. apply IH. intros Hin. apply Hnot. now right.
Qed.

Lemma set_present d k v :
  In k (PyDict.keys d) ->
  exists l1 v0 l2,
    d = l1 ++ (k, v0) :: l2 /\ ~ In k (PyDict.keys l1) /\
    PyDict.set d k v = l1 ++ (k, v) :: l2.
Proof.
  induction d as [|[k' v'] d IH]; simpl; intros Hin; [contradiction|].
  destruct (String.eqb_spec k k') as [->|Hne].
  - exists [], v', d. simpl. auto.
  - destruct Hin as [E|Hin]; [congruence|].
    destruct (IH Hin) as (l1 & v0 & l2 & -> & Hnot & ->).
    exists ((k', v') :: l1), v0, l2. simpl. repeat split.
    intros [E|Hin']; [congruence | contradiction].
Qed.

Lemma get_set_same d k v : PyDict.get (PyDict.set d k v) k = Some v.
Proof.
  induction d as [|[k' v'] d IH]; simpl.
  - now rewrite String.eqb_refl.
  - destruct (String.eqb_spec k k') as [->|Hne]; simpl.
    + now rewrite String.eqb_refl.
    + destruct (String.eqb_spec k k'); [contradiction | assumption].
Qed.


Lemma length_set d k v :
  List.length (PyDict.set d k v) <= S (List.length d).
Proof.
  induction d as [|[k' v'] d IH]; simpl; [lia|].
  destruct (String.eqb k k'); simpl; lia.
Qed.

End DictSetFacts.

Lemma filter_single {A : Type} (f : A -> bool) (l1 l2 : list A) (x : A) :
  f x = true ->
  (forall y, In y l1 -> f y = false) ->
  (forall y, In y l2 -> f y = false) ->
  filter f (l1 ++ x :: l2) = [x].
Proof.
  intros Hx H1 H2. rewrite filter_app. simpl. rewrite Hx.
  rewrite (proj2 (filter_nil_iff f l1) H1).
  now rewrite (proj2 (filter_nil_iff f l2) H2).
Qed.

Lemma filter_all {A : Type} (f : A -> bool) (l : list A) :
  (forall y, In y l -> f y = true) -> filter f l = l.
Proof.
  induction l as [|a l IH]; simpl; intros Hall; [reflexivity|].
  rewrite (Hall a (or_introl eq_refl)). f_equal. auto.
Qed.

(** ** The detection pass on snapshots that differ in one place *)

Section DetectExtras.
Context {mtime : Type}.
Context (mtime_eq_dec : forall a b : mtime, {a = b} + {a <> b}).

(** X1. Against an empty previous snapshot every current path is
    reported, in the order of the current snapshot; against an empty
    current snapshot every previous path is reported as deleted, in the
    order of the previous snapshot. *)
Theorem detect_changes_empty_side (d : pydict mtime) :
  RealtimeSync.detect_changes mtime_eq_dec PyDict.empty d = PyDict.keys d /\
  RealtimeSync.detect_changes mtime_eq_dec d PyDict.empty =
    map (fun p => (p ++ " (deleted)")%string) (PyDict.keys d).
Proof.
  rewrite !detect_changes_eq. split.
  - simpl. rewrite app_nil_r. unfold PyDict.items, PyDict.keys.
    now rewrite filter_all by reflexivity.
  - simpl. now rewrite filter_all by reflexivity.
Qed.

(** X2. When one file is added to a snapshot, or its timestamp is set to
    another value, the change list between the old and the new snapshot
    is exactly that path. *)
Theorem detect_changes_one_touched (d : pydict mtime) (p : string) (t : mtime) :
  PyDict.wf d ->
  PyDict.get d p <> Some t ->
  RealtimeSync.detect_changes mtime_eq_dec d (PyDict.set d p t) = [p].
Proof.
  intros Hwf Hnew. rewrite detect_changes_eq.
  assert (Hgone : filter (fun k => negb (PyDict.mem (PyDict.set d p t) k))
                    (PyDict.keys d) = []).
  { apply filter_nil_iff. intros k Hin.
    assert (Hm : PyDict.mem (PyDict.set d p t) k = true)
      by (apply mem_keys, keys_set; now right).
    now rewrite Hm. }
  rewrite Hgone, app_nil_r.
  assert (Hp : RealtimeSync.is_changed mtime_eq_dec d p t = true).
  { apply is_changed_true. destruct (PyDict.get d p) as [t0|]; [|now left].
    right. exists t0. split; [reflexivity|congruence]. }
  assert (Hold : forall kv, In kv d ->
            RealtimeSync.is_changed mtime_eq_dec d (fst kv) (snd kv) = false).
  { intros [k v] Hin. simpl. apply is_changed_false. now apply In_get_wf. }
  unfold PyDict.items.
  destruct (in_dec string_dec p (PyDict.keys d)) as [Hin|Hnot].
  - destruct (set_present d p t Hin) as (l1 & v0 & l2 & Ed & _ & ->).
    rewrite (filter_single _ l1 l2 (p, t)); [reflexivity | exact Hp | |].
    + intros y Hy. apply Hold. rewrite Ed. apply in_or_app. now left.
    + intros y Hy. apply Hold. rewrite Ed. apply in_or_app. right. now right.
  - rewrite (set_fresh d p t Hnot).
    rewrite (filter_single _ d [] (p, t)); [reflexivity | exact Hp | exact Hold |].
    intros y [].
Qed.


End DetectExtras.

(** ** The ignore test *)

Lemma append_assoc (a b c : string) :
  ((a ++ b) ++ c)%string = (a ++ b ++ c)%string.
Proof. induction a as [|x a IH]; simpl; congruence. Qed.

Lemma should_ignore_spec (path : string) :
  RealtimeSync.should_ignore path = true <->
  exists pattern pre post,
    In pattern RealtimeSync.ignore_patterns /\
    path = (pre ++ pattern ++ post)%string.
Proof.
  unfold RealtimeSync.should_ignore. rewrite existsb_exists. split.
  - intros (pattern & Hin & Hc). apply contains_spec in Hc.
    destruct Hc as (pre & post & E). now exists pattern, pre, post.
  - intros (pattern & pre & post & Hin & E). exists pattern.
    split; [assumption|]. apply contains_spec. eauto.
Qed.

(** X4. [should_ignore] answers [True] exactly for the paths in which one
    of the seven ignore patterns occurs as a substring. *)
Theorem should_ignore_iff_pattern_occurs (path : string) :
  RealtimeSync.should_ignore path = true <->
  exists pattern pre post,
    In pattern [".git"; "__pycache__"; "node_modules"; ".env";
                "trading_dashboard.db"; ".kiro"; ".vscode"] /\
    path = (pre ++ pattern ++ post)%string.
Proof. apply should_ignore_spec. Qed.

(** X5. Ignoring is kept under extension: whatever is put before or after
    an ignored path, the result is ignored too (so every path below an
    ignored directory is ignored). *)
Theorem should_ignore_extension (path before after : string) :
  RealtimeSync.should_ignore path = true ->
  RealtimeSync.should_ignore (before ++ path ++ after) = true.
Proof.
  intros Hign. apply should_ignore_spec in Hign.
  destruct Hign as (pattern & pre & post & Hin & ->).
  apply should_ignore_spec.
  exists pattern, (before ++ pre)%string, (post ++ after)%string.
  split; [assumption|].
  now rewrite !append_assoc.
Qed.

(** ** The snapshot, entry by entry *)

Section SnapshotExtras.
Context {mtime : Type}.
Implicit Types (d : pydict mtime) (e : dir_entry mtime).

Lemma record_file_item d e :
  RealtimeSync.record_file d e =
  match snapshot_item e with
  | [] => d
  | (k, t) :: _ => PyDict.set d k t
  end.
Proof.
  unfold RealtimeSync.record_file, snapshot_item.
  destruct (is_file e && negb (RealtimeSync.should_ignore (path_str e)));
    [|reflexivity].
  now destruct (st_mtime e).
Qed.

Lemma snapshot_item_cases e :
  (snapshot_item e = [] /\
   (is_file e = false \/ RealtimeSync.should_ignore (path_str e) = true \/
    st_mtime e = None)) \/
  (exists t, snapshot_item e = [(path_str e, t)] /\ is_file e = true /\
             RealtimeSync.should_ignore (path_str e) = false /\
             st_mtime e = Some t).
Proof.
  unfold snapshot_item.
  destruct (is_file e); simpl; [|left; auto].
  destruct (RealtimeSync.should_ignore (path_str e)); simpl; [left; auto|].
  destruct (st_mtime e) as [t|]; [|left; auto].
  right. exists t. auto.
Qed.


Lemma fold_record_length entries d :
  List.length (fold_left RealtimeSync.record_file entries d)
  <= List.length d + List.length entries.
Proof.
  revert d; induction entries as [|e entries IH]; simpl; intros d; [lia|].
  specialize (IH (RealtimeSync.record_file d e)).
  assert (List.length (RealtimeSync.record_file d e) <= S (List.length d)).
  { rewrite record_file_item.
    destruct (snapshot_item e) as [|[k0 t0] rest]; [lia|apply length_set]. }
  lia.
Qed.

Lemma fold_record_fresh entries d :
  NoDup (map path_str entries) ->
  (forall k, In k (PyDict.keys d) -> ~ In k (map path_str entries)) ->
  fold_left RealtimeSync.record_file entries d =
  d ++ flat_map snapshot_item entries.
Proof.
  revert d; induction entries as [|e entries IH]; simpl; intros d Hnd Hdisj.
  - now rewrite app_nil_r.
  - inversion Hnd as [|? ? Hnotin Hnd']; subst.
    rewrite record_file_item.
    destruct (snapshot_item_cases e) as [[-> _]|(t & -> & _)].
    + simpl. apply IH; [assumption|].
      intros k Hin Hin'. apply (Hdisj k Hin). now right.
    + rewrite set_fresh.
      * rewrite IH; [now rewrite <- app_assoc | assumption |].
        intros k Hin Hin'. unfold PyDict.keys in Hin.
        rewrite map_app in Hin. apply in_app_or in Hin.
        destruct Hin as [Hin|[<-|[]]].
        -- apply (Hdisj k Hin). now right.
        -- simpl in Hnotin. contradiction.
      * intros Hin. apply (Hdisj _ Hin). now left.
Qed.


(** X7. When the listing names every path once, the snapshot is the list
    of its recorded entries in listing order, each with its own
    modification time; in particular a recorded entry is looked up with
    its modification time. *)
Theorem snapshot_of_distinct_paths (entries : list (dir_entry mtime)) :
  NoDup (map path_str entries) ->
  RealtimeSync.scan entries = flat_map snapshot_item entries /\
  forall e t,
    In e entries -> is_file e = true ->
    RealtimeSync.should_ignore (path_str e) = false ->
    st_mtime e = Some t ->
    PyDict.get (RealtimeSync.scan entries) (path_str e) = Some t.
Proof.
  intros Hnd.
  assert (E : RealtimeSync.scan entries = flat_map snapshot_item entries).
  { unfold RealtimeSync.scan. now rewrite fold_record_fresh by auto. }
  split; [exact E|].
  intros e t He Hf Hi Hs.
  apply In_get_wf; [apply scan_wf|].
  rewrite E. apply in_flat_map. exists e. split; [assumption|].
  unfold snapshot_item. rewrite Hf, Hi, Hs. simpl. now left.
Qed.

(** X8. A snapshot holds each path once and has at most as many entries
    as the listing. *)
Theorem snapshot_is_a_dict (entries : list (dir_entry mtime)) :
  NoDup (PyDict.keys (RealtimeSync.scan entries)) /\
  List.length (RealtimeSync.scan entries) <= List.length entries.
Proof.
  split.
  - apply scan_wf.
  - unfold RealtimeSync.scan.
    pose proof (fold_record_length entries (@PyDict.empty mtime)) as Hl.
    simpl in Hl. exact Hl.
Qed.

End SnapshotExtras.

(** ** The scan with a raising [is_file()] *)

Section RaisingScan.
Context {mtime : Type}.





End RaisingScan.

(** ** Blank output *)

Lemma lstrip_empty (s : string) :
  PyStr.lstrip s = "" <->
  forall c, In c (list_ascii_of_string s) -> PyStr.isspace c = true.
Proof.
  induction s as [|a s IH]; simpl.
  - split; [intros _ c [] | reflexivity].
  - destruct (PyStr.isspace a) eqn:Ea.
    + rewrite IH. split.
      * intros Hall c [<-|Hin]; auto.
      * intros Hall c Hin. auto.
    + split; [discriminate|]. intros Hall.
      specialize (Hall a (or_introl eq_refl)). congruence.
Qed.

Lemma rstrip_empty (s : string) :
  PyStr.rstrip s = "" <->
  forall c, In c (list_ascii_of_string s) -> PyStr.isspace c = true.
Proof.
  induction s as [|a s IH]; simpl.
  - split; [intros _ c [] | reflexivity].
  - destruct (PyStr.rstrip s) as [|b r] eqn:Er.
    + destruct (PyStr.isspace a) eqn:Ea.
      * split; [|reflexivity]. intros _ c [<-|Hin]; [assumption|].
        now apply (proj1 IH).
      * split; [discriminate|]. intros Hall.
        specialize (Hall a (or_introl eq_refl)). congruence.
    + split; [discriminate|]. intros Hall.
      assert (Hs : String b r = "") by (apply IH; intros c Hin; auto).
      discriminate.
Qed.

Lemma lstrip_suffix (s : string) :
  forall c, In c (list_ascii_of_string (PyStr.lstrip s)) ->
            In c (list_ascii_of_string s).
Proof.
  induction s as [|a s IH]; simpl; [tauto|].
  destruct (PyStr.isspace a); simpl; [|tauto].
  intros c Hin. right. auto.
Qed.

Lemma lstrip_head (s : string) :
  match PyStr.lstrip s with
  | EmptyString => True
  | String c _ => PyStr.isspace c = false
  end.
Proof.
  induction s as [|a s IH]; simpl; [exact I|].
  destruct (PyStr.isspace a) eqn:Ea; [assumption|]. exact Ea.
Qed.

(** [s.strip() == ""] holds exactly when [s] is made of whitespace. *)
Lemma strip_empty (s : string) :
  PyStr.strip s = "" <->
  forall c, In c (list_ascii_of_string s) -> PyStr.isspace c = true.
Proof.
  unfold PyStr.strip. rewrite rstrip_empty. split.
  - intros Hall. apply lstrip_empty.
    pose proof (lstrip_head s) as Hh.
    destruct (PyStr.lstrip s) as [|c r]; [reflexivity|].
    specialize (Hall c (or_introl eq_refl)). congruence.
  - intros Hall c Hin. apply Hall. now apply lstrip_suffix.
Qed.

(** ** Console lines of a trace *)

Lemma file_lines_app (t1 t2 : list event) :
  file_lines (t1 ++ t2) = file_lines t1 ++ file_lines t2.
Proof.
  induction t1 as [|[c|m|z] t1 IH]; simpl; try congruence.
  destruct m; simpl; congruence.
Qed.

Lemma more_lines_app (t1 t2 : list event) :
  more_lines (t1 ++ t2) = more_lines t1 ++ more_lines t2.
Proof.
  induction t1 as [|[c|m|z] t1 IH]; simpl; try congruence.
  destruct m; simpl; congruence.
Qed.

Lemma sleeps_app (t1 t2 : list event) :
  sleeps (t1 ++ t2) = sleeps t1 ++ sleeps t2.
Proof.
  induction t1 as [|[c|m|z] t1 IH]; simpl; congruence.
Qed.

Lemma sync_header_file_lines (changed_files : list string) :
  file_lines (sync_header changed_files) = firstn 5 changed_files /\
  more_lines (sync_header changed_files) =
    if (5 <? List.length changed_files)%nat
    then [List.length changed_files - 5] else [].
Proof.
  unfold sync_header.
  rewrite !file_lines_app, !more_lines_app.
  cbn [file_lines more_lines app].
  assert (E1 : forall l : list string,
             file_lines (map (fun file => Printed (FileLine file)) l) = l).
  { induction l; simpl; congruence. }
  assert (E2 : forall l : list string,
             more_lines (map (fun file => Printed (FileLine file)) l) = []).
  { induction l; simpl; congruence. }
  rewrite E1, E2.
  destruct (5 <? List.length changed_files)%nat; simpl;
    now rewrite app_nil_r.
Qed.

(** ** Further properties of the publish sequences *)

Section PublishExtras.
Context {W : Type} `{Shell W}.

(** [sync_to_github] prints its header and then lines that name no file. *)
Lemma sync_to_github_header (changed_files : list string) (w : W) :
  exists rest,
    trace_of (RealtimeSync.sync_to_github changed_files w) =
      sync_header changed_files ++ rest /\
    file_lines rest = [] /\ more_lines rest = [].
Proof.
  rewrite sync_to_github_steps.
  destruct (subprocess_run git_add w) as [o1 w1].
  destruct (outcome_ok o1); step;
    [|eexists; unfold trace_of; cbn [fst snd]; repeat split].
  destruct (subprocess_run _ w1) as [o2 w2].
  destruct (outcome_ok o2); step.
  - destruct (subprocess_run git_push w2) as [o3 w3].
    destruct (outcome_ok o3); step;
      eexists; unfold trace_of; cbn [fst snd]; repeat split.
  - destruct (PyStr.contains _ (outcome_err o2));
      eexists; unfold trace_of; cbn [fst snd]; repeat split.
Qed.

(** X9. [sync_to_github] shows at most five of the changed files, the
    first five in order, and adds one "more files" line with the number
    of the remaining ones exactly when there are more than five. *)
Theorem sync_lists_first_five (changed_files : list string) (w : W) :
  let tr := trace_of (RealtimeSync.sync_to_github changed_files w) in
  file_lines tr = firstn 5 changed_files /\
  List.length (file_lines tr) <= 5 /\
  more_lines tr =
    if (5 <? List.length changed_files)%nat
    then [List.length changed_files - 5] else [].
Proof.
  cbv zeta.
  destruct (sync_to_github_header changed_files w) as (rest & -> & Hf & Hm).
  rewrite file_lines_app, more_lines_app, Hf, Hm, !app_nil_r.
  destruct (sync_header_file_lines changed_files) as [-> ->].
  repeat split. rewrite length_firstn. lia.
Qed.

(** X10. [sync_to_github] returns [False] exactly when it has printed one
    of its failure lines. *)
Theorem sync_result_matches_report (changed_files : list string) (w : W) :
  result_of (RealtimeSync.sync_to_github changed_files w) =
  negb (reports_error
          (trace_of (RealtimeSync.sync_to_github changed_files w))).
Proof.
  rewrite sync_to_github_steps.
  destruct (subprocess_run git_add w) as [o1 w1].
  destruct (outcome_ok o1); step; [|trace_facts; reflexivity].
  destruct (subprocess_run _ w1) as [o2 w2].
  destruct (outcome_ok o2); step.
  - destruct (subprocess_run git_push w2) as [o3 w3].
    destruct (outcome_ok o3); step; trace_facts; reflexivity.
  - destruct (PyStr.contains _ (outcome_err o2)); trace_facts; reflexivity.
Qed.

(** X11. [auto_commit_and_push] returns [False] exactly when it has
    printed one of its failure lines, and it returns [True] exactly when
    the pre-check found nothing to do or staging, commit and push all
    succeeded. *)
Theorem auto_result_matches_report (w : W) :
  let r := AutoSync.auto_commit_and_push w in
  result_of r = negb (reports_error (trace_of r)) /\
  result_of r =
    (let (o0, w0) := subprocess_run git_status w in
     if outcome_ok o0 && negb (String.eqb (PyStr.strip (outcome_out o0)) "")
     then
       let (o1, w1) := subprocess_run git_add w0 in
       let (o2, w2) := subprocess_run (auto_commit (strftime_now w1)) w1 in
       let (o3, w3) := subprocess_run git_push w2 in
       outcome_ok o1 && outcome_ok o2 && outcome_ok o3
     else true).
Proof.
  cbv zeta. rewrite auto_commit_and_push_steps.
  destruct (subprocess_run git_status w) as [o0 w0].
  destruct (outcome_ok o0
            && negb (String.eqb (PyStr.strip (outcome_out o0)) ""));
    step; [|split; reflexivity].
  destruct (subprocess_run git_add w0) as [o1 w1].
  destruct (subprocess_run (auto_commit (strftime_now w1)) w1) as [o2 w2].
  destruct (subprocess_run git_push w2) as [o3 w3].
  destruct (outcome_ok o1); step; [|split; reflexivity].
  destruct (outcome_ok o2); step; [|split; reflexivity].
  destruct (outcome_ok o3); step; split; reflexivity.
Qed.

(** X12. [check_git_changes] answers [True] exactly when [git status]
    succeeded and its output holds a character that is not whitespace. *)
Theorem check_git_changes_true_iff (w : W) :
  result_of (AutoSync.check_git_changes w) = true <->
  outcome_ok (fst (subprocess_run git_status w)) = true /\
  exists c,
    In c (list_ascii_of_string
            (outcome_out (fst (subprocess_run git_status w)))) /\
    PyStr.isspace c = false.
Proof.
  rewrite check_git_changes_eq.
  destruct (subprocess_run git_status w) as [o w']. unfold result_of.
  cbn [fst snd]. rewrite andb_true_iff, negb_true_iff.
  assert (Hblank : String.eqb (PyStr.strip (outcome_out o)) "" = false <->
                   exists c, In c (list_ascii_of_string (outcome_out o)) /\
                             PyStr.isspace c = false).
  { destruct (String.eqb_spec (PyStr.strip (outcome_out o)) "") as [E|E].
    - split; [discriminate|]. intros (c & Hin & Hc).
      rewrite strip_empty in E. specialize (E c Hin). congruence.
    - split; [intros _ | reflexivity].
      assert (Hex : ~ forall c, In c (list_ascii_of_string (outcome_out o)) ->
                                PyStr.isspace c = true)
        by (intros Hall; apply E, strip_empty, Hall).
      clear E. induction (list_ascii_of_string (outcome_out o)) as [|a l IH].
      + exfalso. apply Hex. intros c [].
      + destruct (PyStr.isspace a) eqn:Ea.
        * destruct IH as (c & Hin & Hc).
          -- intros Hall. apply Hex. intros c [<-|Hin]; auto.
          -- exists c. split; [now right | assumption].
        * exists a. split; [now left | assumption]. }
  now rewrite Hblank.
Qed.

End PublishExtras.

Section QuickSyncExtras.
Context {W : Type} `{Shell W}.

(** X13. In [quick_sync], once [git status] has shown changes, each of
    add, commit and push runs only if the step before it succeeded; a
    failed step is reported and ends the run, and the closing link line
    is printed only after a successful push. *)
Theorem quick_sync_steps_gated (w : W) :
  let r := SyncNow.quick_sync w in
  let (o0, w0) := subprocess_run git_status w in
  if outcome_ok o0 && negb (String.eqb (PyStr.strip (outcome_out o0)) "")
  then
    let (o1, w1) := subprocess_run git_add w0 in
    if negb (outcome_ok o1) then
      commands (trace_of r) = [git_status; git_add] /\
      In (Printed (FailedToAdd (outcome_err o1))) (trace_of r) /\
      ~ In (Printed ViewAt) (trace_of r)
    else
      let commit := quick_commit (strftime_now w1) in
      let (o2, w2) := subprocess_run commit w1 in
      if negb (outcome_ok o2) then
        commands (trace_of r) = [git_status; git_add; commit] /\
        In (Printed (FailedToCommit (outcome_err o2))) (trace_of r) /\
        ~ In (Printed ViewAt) (trace_of r)
      else
        let (o3, w3) := subprocess_run git_push w2 in
        commands (trace_of r) = [git_status; git_add; commit; git_push] /\
        if outcome_ok o3 then
          reports_error (trace_of r) = false /\
          In (Printed ViewAt) (trace_of r)
        else
          In (Printed (FailedToPush (outcome_err o3))) (trace_of r) /\
          ~ In (Printed ViewAt) (trace_of r)
  else True.
Proof.
  cbv zeta. rewrite quick_sync_steps.
  destruct (subprocess_run git_status w) as [o0 w0].
  destruct (outcome_ok o0); cbn [negb andb orb]; [|exact I].
  destruct (String.eqb (PyStr.strip (outcome_out o0)) "");
    cbn [negb]; [exact I|].
  destruct (subprocess_run git_add w0) as [o1 w1].
  destruct (outcome_ok o1); step.
  2:{ unfold trace_of; cbn [fst snd]. repeat split; [simpl; tauto|].
      simpl. intuition discriminate. }
  destruct (subprocess_run _ w1) as [o2 w2].
  destruct (outcome_ok o2); step.
  2:{ unfold trace_of; cbn [fst snd]. repeat split; [simpl; tauto|].
      simpl. intuition discriminate. }
  destruct (subprocess_run git_push w2) as [o3 w3].
  destruct (outcome_ok o3); step; unfold trace_of; cbn [fst snd];
    repeat split; simpl; try tauto.
  intuition discriminate.
Qed.

End QuickSyncExtras.

(** ** Further properties of the loops *)

Section LoopExtras.
Context {mtime W : Type}.
Context (mtime_eq_dec : forall a b : mtime, {a = b} + {a <> b}).
Context `{FileSystem mtime W} `{Shell W}.

Lemma scan_clean_baseline (entries : list (dir_entry mtime)) :
  clean_baseline (RealtimeSync.scan entries).
Proof.
  split; [apply scan_wf|].
  intros k Hin. apply fold_record_keys in Hin.
  destruct Hin as [[]|(e & _ & _ & _ & Hi & _)]. exact Hi.
Qed.

Lemma watch_iteration_clean (check_interval : Z)
    (self : RealtimeSync.FileWatcher) (w : W) :
  clean_baseline (RealtimeSync.last_modified self) ->
  clean_baseline
    (RealtimeSync.last_modified
       (result_of
          (RealtimeSync.watch_iteration mtime_eq_dec check_interval self w))).
Proof.
  intros Hc. rewrite watch_iteration_eq. cbv zeta.
  destruct (RealtimeSync.detect_changes mtime_eq_dec
              (RealtimeSync.last_modified self) (RealtimeSync.scan (rglob w)))
    as [|f fs].
  - exact Hc.
  - destruct (RealtimeSync.sync_to_github (f :: fs) w) as [[b tr] w1].
    apply scan_clean_baseline.
Qed.

Lemma watch_loop_clean (rounds : nat) (check_interval : Z) :
  forall (self : RealtimeSync.FileWatcher) (w : W),
  clean_baseline (RealtimeSync.last_modified self) ->
  clean_baseline
    (RealtimeSync.last_modified
       (result_of
          (RealtimeSync.watch_loop mtime_eq_dec rounds check_interval self w))).
Proof.
  induction rounds as [|n IH]; intros self w Hc; [exact Hc|].
  cbn [RealtimeSync.watch_loop]. unfold bind.
  pose proof (watch_iteration_clean check_interval self w Hc) as Hc1.
  destruct (RealtimeSync.watch_iteration mtime_eq_dec check_interval self w)
    as [[self1 tr1] w1].
  unfold result_of in Hc1. cbn [fst snd] in Hc1.
  specialize (IH self1 w1 Hc1).
  destruct (RealtimeSync.watch_loop mtime_eq_dec n check_interval self1 w1)
    as [[self2 tr2] w2].
  exact IH.
Qed.

Lemma watch_eq (rounds : nat) (check_interval : Z)
    (self : RealtimeSync.FileWatcher) (w : W) :
  RealtimeSync.watch mtime_eq_dec rounds check_interval self w =
  let start := {| RealtimeSync.last_modified := RealtimeSync.scan (rglob w) |} in
  let '(s, tr, w') :=
    RealtimeSync.watch_loop mtime_eq_dec rounds check_interval start w in
  (s,
   [Printed RealtimeSyncStarted; Printed (Rule 40); Printed WatchingDirectory;
    Printed RepositoryLink; Printed (CheckInterval check_interval);
    Printed PressCtrlC;
    Printed (Monitoring (List.length (RealtimeSync.scan (rglob w))))]
   ++ tr ++ [Printed RealtimeSyncStopped], w').
Proof.
  unfold RealtimeSync.watch, RealtimeSync.get_file_times, bind, print, ret.
  cbv beta iota zeta.
  destruct (RealtimeSync.watch_loop mtime_eq_dec rounds check_interval
              {| RealtimeSync.last_modified := RealtimeSync.scan (rglob w) |} w)
    as [[s tr] w'].
  cbn [RealtimeSync.last_modified]. simpl. rewrite ?app_nil_r. reflexivity.
Qed.

(** X14. Whatever happens during the rounds of [watch], the baseline it
    ends with holds each path once and holds no ignored path. *)
Theorem watch_baseline_invariant (rounds : nat) (check_interval : Z)
    (self : RealtimeSync.FileWatcher) (w : W) :
  let final :=
    RealtimeSync.last_modified
      (result_of
         (RealtimeSync.watch mtime_eq_dec rounds check_interval self w)) in
  NoDup (PyDict.keys final) /\
  forall k, In k (PyDict.keys final) -> RealtimeSync.should_ignore k = false.
Proof.
  cbv zeta. rewrite watch_eq. cbv zeta.
  pose proof (watch_loop_clean rounds check_interval
                {| RealtimeSync.last_modified := RealtimeSync.scan (rglob w) |}
                w (scan_clean_baseline (rglob w))) as Hc.
  destruct (RealtimeSync.watch_loop mtime_eq_dec rounds check_interval
              {| RealtimeSync.last_modified := RealtimeSync.scan (rglob w) |} w)
    as [[s tr] w'].
  exact Hc.
Qed.

End LoopExtras.

Section QuietLoops.
Context {mtime W : Type}.
Context (mtime_eq_dec : forall a b : mtime, {a = b} + {a <> b}).
Context `{FileSystem mtime W} `{Shell W}.

(** The listing is not touched by sleeping, resp. by running commands. *)
Hypothesis sleep_keeps_listing :
  forall (z : Z) (w : W), rglob (sleep z w) = rglob w.

Lemma quiet_loop (rounds : nat) (check_interval : Z)
    (self : RealtimeSync.FileWatcher) :
  forall w : W,
  RealtimeSync.detect_changes mtime_eq_dec
    (RealtimeSync.last_modified self) (RealtimeSync.scan (rglob w)) = [] ->
  result_of (RealtimeSync.watch_loop mtime_eq_dec rounds check_interval self w)
    = self /\
  trace_of (RealtimeSync.watch_loop mtime_eq_dec rounds check_interval self w)
    = repeat (Slept check_interval) rounds.
Proof.
  induction rounds as [|n IH]; intros w Hd; [split; reflexivity|].
  cbn [RealtimeSync.watch_loop]. unfold bind.
  rewrite watch_iteration_eq. cbv zeta. rewrite Hd.
  assert (Hd' : RealtimeSync.detect_changes mtime_eq_dec
                  (RealtimeSync.last_modified self)
                  (RealtimeSync.scan (rglob (sleep check_interval w))) = [])
    by now rewrite sleep_keeps_listing.
  destruct (IH _ Hd') as [Er Et].
  destruct (RealtimeSync.watch_loop mtime_eq_dec n check_interval self
              (sleep check_interval w)) as [[s tr] w'].
  unfold result_of, trace_of in *. cbn [fst snd] in *. subst. split; reflexivity.
Qed.

Lemma commands_repeat_slept (z : Z) (n : nat) :
  commands (repeat (Slept z) n) = [] /\
  sleeps (repeat (Slept z) n) = repeat z n.
Proof. induction n as [|n [IH1 IH2]]; simpl; [auto|]. split; congruence. Qed.

(** X15. Over a directory that does not change, [watch] runs no command
    at all: it keeps the snapshot of its initial scan as baseline and
    only sleeps, once per round. *)
Theorem watch_static_directory (rounds : nat) (check_interval : Z)
    (self : RealtimeSync.FileWatcher) (w : W) :
  (0 <= check_interval)%Z ->
  let r := RealtimeSync.watch mtime_eq_dec rounds check_interval self w in
  commands (trace_of r) = [] /\
  sleeps (trace_of r) = repeat check_interval rounds /\
  RealtimeSync.last_modified (result_of r) = RealtimeSync.scan (rglob w).
Proof.
  intros _. cbv zeta. rewrite watch_eq. cbv zeta.
  destruct (quiet_loop rounds check_interval
              {| RealtimeSync.last_modified := RealtimeSync.scan (rglob w) |} w)
    as [Er Et].
  { apply detect_same, scan_wf. }
  destruct (RealtimeSync.watch_loop mtime_eq_dec rounds check_interval
              {| RealtimeSync.last_modified := RealtimeSync.scan (rglob w) |} w)
    as [[s tr] w'].
  unfold result_of, trace_of in *. cbn [fst snd] in *. subst.
  destruct (commands_repeat_slept check_interval rounds) as [Ec Es].
  repeat split.
  - cbn [app commands]. now rewrite commands_app, Ec.
  - cbn [app sleeps]. rewrite sleeps_app, Es. simpl. now rewrite app_nil_r.
Qed.

Hypothesis commands_keep_listing :
  forall (c : string) (w : W), rglob (snd (subprocess_run c w)) = rglob w.

Lemma sync_keeps_listing (changed_files : list string) (w : W) :
  rglob (world_of (RealtimeSync.sync_to_github changed_files w)) = rglob w.
Proof.
  rewrite sync_to_github_steps.
  pose proof (commands_keep_listing git_add w) as H1.
  destruct (subprocess_run git_add w) as [o1 w1]. cbn [snd] in H1.
  destruct (outcome_ok o1); step; [|exact H1].
  pose proof (commands_keep_listing
                (realtime_commit (List.length changed_files) (strftime_now w1))
                w1) as H2.
  destruct (subprocess_run _ w1) as [o2 w2]. cbn [snd] in H2.
  destruct (outcome_ok o2); step.
  - pose proof (commands_keep_listing git_push w2) as H3.
    destruct (subprocess_run git_push w2) as [o3 w3]. cbn [snd] in H3.
    destruct (outcome_ok o3); step; unfold world_of; cbn [snd]; congruence.
  - destruct (PyStr.contains _ (outcome_err o2)); unfold world_of; cbn [snd];
      congruence.
Qed.

(** X16. After a round of the watch loop, further rounds over an
    unchanged directory run no command and keep the baseline, whether the
    sync of that round succeeded or failed: a change whose sync failed is
    not tried again. *)
Theorem change_is_synced_once (rounds : nat) (check_interval : Z)
    (self : RealtimeSync.FileWatcher) (w : W) :
  (0 <= check_interval)%Z ->
  let r1 := RealtimeSync.watch_iteration mtime_eq_dec check_interval self w in
  let r :=
    RealtimeSync.watch_loop mtime_eq_dec rounds check_interval
      (result_of r1) (world_of r1) in
  commands (trace_of r) = [] /\ result_of r = result_of r1.
Proof.
  intros _. cbv zeta.
  assert (Hd : RealtimeSync.detect_changes mtime_eq_dec
            (RealtimeSync.last_modified
               (result_of (RealtimeSync.watch_iteration mtime_eq_dec
                             check_interval self w)))
            (RealtimeSync.scan
               (rglob (world_of (RealtimeSync.watch_iteration mtime_eq_dec
                                   check_interval self w)))) = []).
  { rewrite watch_iteration_eq. cbv zeta.
    destruct (RealtimeSync.detect_changes mtime_eq_dec
                (RealtimeSync.last_modified self)
                (RealtimeSync.scan (rglob w))) as [|f fs] eqn:Ed.
    - unfold result_of, world_of. cbn [fst snd].
      now rewrite sleep_keeps_listing.
    - pose proof (sync_keeps_listing (f :: fs) w) as Hs.
      destruct (RealtimeSync.sync_to_github (f :: fs) w) as [[b tr] w1].
      unfold result_of, world_of in *. cbn [fst snd] in *.
      cbn [RealtimeSync.last_modified].
      rewrite sleep_keeps_listing, Hs. apply detect_same, scan_wf. }
  destruct (quiet_loop rounds check_interval _ _ Hd) as [Er Et].
  split; [|exact Er].
  rewrite Et. apply commands_repeat_slept.
Qed.

End QuietLoops.

Section IdleAutoSync.
Context {W : Type} `{Shell W}.

Lemma sync_loop_idle (idle : W -> Prop) (rounds : nat) (interval : Z) :
  (forall w, idle w ->
     let (o, w') := subprocess_run git_status w in
     outcome_ok o && negb (String.eqb (PyStr.strip (outcome_out o)) "") = false
     /\ idle (sleep interval w')) ->
  forall w, idle w ->
  commands (trace_of (AutoSync.sync_loop rounds interval w))
    = repeat git_status rounds /\
  reports_error (trace_of (AutoSync.sync_loop rounds interval w)) = false.
Proof.
  intros Hidle.
  induction rounds as [|n IH]; intros w Hw; [split; reflexivity|].
  cbn [AutoSync.sync_loop]. unfold bind, AutoSync.sleep_for.
  rewrite auto_commit_and_push_steps.
  specialize (Hidle w Hw).
  destruct (subprocess_run git_status w) as [o w'].
  destruct Hidle as [Hno Hw']. rewrite Hno. cbn [negb].
  destruct (IH _ Hw') as [Ec Ee].
  destruct (AutoSync.sync_loop n interval (sleep interval w')) as [[u tr] w2].
  unfold trace_of in *. cbn [fst snd] in *.
  split.
  - simpl. now rewrite Ec.
  - unfold reports_error in *. simpl. exact Ee.
Qed.

(** X17. While [git status] keeps finding nothing to do, [watch_and_sync]
    runs [git status] once per round and nothing else, and reports no
    error. *)
Theorem watch_and_sync_idle (idle : W -> Prop) (rounds : nat) (interval : Z)
    (w : W) :
  (0 <= interval)%Z ->
  (forall w, idle w ->
     let (o, w') := subprocess_run git_status w in
     outcome_ok o && negb (String.eqb (PyStr.strip (outcome_out o)) "") = false
     /\ idle (sleep interval w')) ->
  idle w ->
  commands (trace_of (AutoSync.watch_and_sync rounds interval w))
    = repeat git_status rounds /\
  reports_error (trace_of (AutoSync.watch_and_sync rounds interval w)) = false.
Proof.
  intros _ Hidle Hw.
  destruct (sync_loop_idle idle rounds interval Hidle w Hw) as [Ec Ee].
  unfold AutoSync.watch_and_sync, bind, print.
  destruct (AutoSync.sync_loop rounds interval w) as [[u tr] w'].
  unfold trace_of in *. cbn [fst snd] in *. split.
  - simpl. now rewrite commands_app, Ec, app_nil_r.
  - unfold reports_error in *. simpl.
    now rewrite console_app, existsb_app, Ee.
Qed.

End IdleAutoSync.

(** ** The further properties on concrete inputs *)

Ltac distinct_strings :=
  repeat (constructor; [simpl; intuition discriminate|]); constructor.

Example scan_mixed_listing :
  RealtimeSync.scan Scripted.mixed_listing = [("app.py", 7%Z); ("README.md", 9%Z)].
Proof. reflexivity. Qed.

(** X2 on a file whose timestamp moves from 7 to 8. *)
Lemma detect_changes_one_touched_witness :
  RealtimeSync.detect_changes Z.eq_dec
    [("app.py", 7%Z); ("README.md", 9%Z)]
    (PyDict.set [("app.py", 7%Z); ("README.md", 9%Z)] "app.py" 8%Z)
  = ["app.py"].
Proof.
  apply (detect_changes_one_touched Z.eq_dec
           [("app.py", 7%Z); ("README.md", 9%Z)] "app.py" 8%Z).
  - unfold PyDict.wf. simpl. distinct_strings.
  - simpl. discriminate.
Defined.


(** X5 on a path below a [.git] directory. *)
Lemma should_ignore_extension_witness :
  RealtimeSync.should_ignore "repo/.git/config" = true.
Proof.
  apply (should_ignore_extension ".git" "repo/" "/config"). reflexivity.
Defined.

(** X7 on a listing with a link, an unreadable file and an ignored file. *)
Lemma snapshot_of_distinct_paths_witness :
  RealtimeSync.scan Scripted.mixed_listing
    = [("app.py", 7%Z); ("README.md", 9%Z)] /\
  PyDict.get (RealtimeSync.scan Scripted.mixed_listing) "README.md" = Some 9%Z.
Proof.
  assert (Hnd : NoDup (map path_str Scripted.mixed_listing))
    by (simpl; distinct_strings).
  destruct (snapshot_of_distinct_paths Scripted.mixed_listing Hnd) as [E Hget].
  split; [exact E|].
  apply (Hget (Scripted.file "README.md" 9) 9%Z); try reflexivity.
  simpl. tauto.
Defined.

(** X15 on three rounds over a directory that stays as it is. *)
Lemma watch_static_directory_witness :
  commands
    (trace_of (RealtimeSync.watch Z.eq_dec 3 5
                 {| RealtimeSync.last_modified := [] |} Scripted.locked)) = [] /\
  sleeps
    (trace_of (RealtimeSync.watch Z.eq_dec 3 5
                 {| RealtimeSync.last_modified := [] |} Scripted.locked))
    = [5%Z; 5%Z; 5%Z] /\
  RealtimeSync.last_modified
    (result_of (RealtimeSync.watch Z.eq_dec 3 5
                  {| RealtimeSync.last_modified := [] |} Scripted.locked))
    = [("app.py", 7%Z)].
Proof.
  assert (Hsleep : forall (z : Z) (w : Scripted.world),
             rglob (sleep z w) = rglob w) by reflexivity.
  apply (watch_static_directory Z.eq_dec Hsleep 3 5
           {| RealtimeSync.last_modified := [] |} Scripted.locked).
  lia.
Defined.

(** X16 on a first round whose [git add] fails. *)
Lemma change_is_synced_once_witness :
  result_of (RealtimeSync.sync_to_github ["app.py"] Scripted.locked) = false /\
  commands
    (trace_of
       (RealtimeSync.watch_loop Z.eq_dec 3 5
          (result_of (RealtimeSync.watch_iteration Z.eq_dec 5
                        {| RealtimeSync.last_modified := [] |} Scripted.locked))
          (world_of (RealtimeSync.watch_iteration Z.eq_dec 5
                       {| RealtimeSync.last_modified := [] |} Scripted.locked))))
    = [].
Proof.
  split; [reflexivity|].
  assert (Hrun : forall (c : string) (w : Scripted.world),
             rglob (snd (subprocess_run c w)) = rglob w).
  { intros c [l rs cl]. destruct rs; reflexivity. }
  assert (Hsleep : forall (z : Z) (w : Scripted.world),
             rglob (sleep z w) = rglob w) by reflexivity.
  apply (change_is_synced_once Z.eq_dec Hsleep Hrun 3 5
           {| RealtimeSync.last_modified := [] |} Scripted.locked).
  lia.
Defined.

(** X17 on four rounds in a world where [git status] prints nothing. *)
Lemma watch_and_sync_idle_witness :
  commands (trace_of (AutoSync.watch_and_sync 4 30 tt))
    = [git_status; git_status; git_status; git_status] /\
  reports_error (trace_of (AutoSync.watch_and_sync 4 30 tt)) = false.
Proof.
  apply (watch_and_sync_idle (fun _ : unit => True) 4 30 tt).
  - lia.
  - intros w _. simpl. split; [reflexivity | exact I].
  - exact I.
Defined.

(** [subprocess.run] raising: the call raises, the runner answers with the
    failure triple. *)
Example run_command_catches :
  Raising.subprocess_run_call git_add
    (Scripted.with_replies [Raised "[Errno 12] Cannot allocate memory"])
  = (inr "[Errno 12] Cannot allocate memory", [Ran git_add],
     Scripted.with_replies []) /\
  Raising.run_command git_add
    (Scripted.with_replies [Raised "[Errno 12] Cannot allocate memory"])
  = (inl (false, "", "[Errno 12] Cannot allocate memory"), [Ran git_add],
     Scripted.with_replies []).
Proof. split; reflexivity. Qed.

(** A scan that meets a path whose [is_file()] raises builds no snapshot;
    one whose [stat()] raises is skipped. *)
Example scan_with_raising_probes :
  Raising.scan
    [ {| Raising.probed_path := "app.py";
         Raising.probed_is_file := Raising.Answers true;
         Raising.probed_mtime := Some 7%Z |};
      {| Raising.probed_path := "locked/secret";
         Raising.probed_is_file :=
           Raising.IsFileRaises "[Errno 13] Permission denied";
         Raising.probed_mtime := None |} ]
  = inr "[Errno 13] Permission denied" /\
  Raising.scan
    [ {| Raising.probed_path := "app.py";
         Raising.probed_is_file := Raising.Answers true;
         Raising.probed_mtime := Some 7%Z |};
      {| Raising.probed_path := "gone.tmp";
         Raising.probed_is_file := Raising.Answers true;
         Raising.probed_mtime := None |} ]
  = inl [("app.py", 7%Z)].
Proof. split; reflexivity. Qed.
